(** * Task management application: authentication and session layer

    A shallow embedding of the authentication code of the task management
    application:
    - client side (Angular): [AuthService] (login state, logout, refresh,
      auto-login, refresh timer) and the two HTTP interceptors
      ([AuthInterceptor], [ErrorInterceptor]);
    - server side (Express): [LoginUserUseCase], [RegisterUserUseCase],
      [UserRepository], the [User] entity, the authentication middlewares and
      the route table of the application.

    Strings are modelled as Rocq strings of ASCII characters; JavaScript's
    [toLowerCase], [trim], [startsWith] and [includes] are written out on them.
    Library code the application only calls (JWT decoding and signing, bcrypt,
    the HTTP server on the other side of the wire) is a parameter of the
    development. *)

From Stdlib Require Import String Ascii List ZArith Bool Lia PArith Relations.
Import ListNotations.
Open Scope string_scope.
Open Scope Z_scope.

(* ------------------------------------------------------------------------- *)
(** ** JavaScript string operations *)

Module JsString.

(** [s.startsWith(p)] *)
Definition startsWith (s p : string) : bool := String.prefix p s.

(** [s.includes(sub)] *)
Fixpoint includes (s sub : string) : bool :=
  String.prefix sub s ||
  match s with
  | EmptyString => false
  | String _ s' => includes s' sub
  end.

(** JavaScript truthiness of a string: only [""] is falsy. *)
Definition truthy (s : string) : bool := negb (String.eqb s "").

(** The white space characters of [String.prototype.trim] and of the regular
    expression class [\s] that are ASCII: TAB, LF, VT, FF, CR and SPACE. *)
Definition is_ws (c : ascii) : bool :=
  let n := nat_of_ascii c in
  (Nat.eqb n 32 || (Nat.leb 9 n && Nat.leb n 13))%bool.

Fixpoint trim_start (s : string) : string :=
  match s with
  | EmptyString => EmptyString
  | String c s' => if is_ws c then trim_start s' else s
  end.

Definition trim_end (s : string) : string :=
  string_of_list_ascii
    (rev (list_ascii_of_string (trim_start
      (string_of_list_ascii (rev (list_ascii_of_string s)))))).

(** [s.trim()] *)
Definition trim (s : string) : string := trim_end (trim_start s).

Definition lower_ascii (c : ascii) : ascii :=
  let n := nat_of_ascii c in
  if (Nat.leb 65 n && Nat.leb n 90)%bool then ascii_of_nat (n + 32) else c.

(** [s.toLowerCase()] *)
Fixpoint toLowerCase (s : string) : string :=
  match s with
  | EmptyString => EmptyString
  | String c s' => String (lower_ascii c) (toLowerCase s')
  end.

Definition digit (n : Z) : ascii := ascii_of_nat (48 + Z.to_nat n).

Fixpoint pos_digits (fuel : nat) (n : Z) (acc : string) : string :=
  match fuel with
  | O => acc
  | S f =>
      let acc' := String (digit (n mod 10)) acc in
      if n <? 10 then acc' else pos_digits f (n / 10) acc'
  end.

(** Template-literal rendering of an integer, [`${n}`]. *)
Definition string_of_Z (z : Z) : string :=
  if z <? 0 then "-" ++ pos_digits 32 (- z) "" else pos_digits 32 z "".

End JsString.

Import JsString.

(* ------------------------------------------------------------------------- *)
(** ** Client: data *)

(** [environment.apiUrl] *)
Definition apiUrl : string := "http://localhost:8000/api".

(** [AuthService.apiUrl] *)
Definition authApiUrl : string := apiUrl ++ "/auth".

(** The URLs of the logout and refresh POSTs. *)
Definition logoutURL : string := authApiUrl ++ "/logout".
Definition refreshURL : string := authApiUrl ++ "/refresh".

(** [User] of [core/models/user.model.ts] (also the shape of [AuthResponse]). *)
Record User := mkUser {
  id : string;
  name : string;
  email : string;
  role : string;
  token : string   (* an absent token is [""]: both are falsy *)
}.

(** [response.data.user] of the server's envelope. *)
Record UserData := mkUserData {
  ud_id : string;
  ud_name : string;
  ud_email : string;
  ud_role : string
}.

(** The body of a successful response: [{success, message, data?: {user, token}}]. *)
Record Body := mkBody {
  data_user : option UserData;
  data_token : option string
}.

(** [HttpErrorResponse]: [client_side] is [Some m] when [error.error] is an
    [ErrorEvent] with message [m]; otherwise [error_message] is
    [error.error.message]. *)
Record HttpErrorResponse := mkHttpError {
  status : Z;
  error_message : option string;
  statusText : string;
  client_side : option string
}.

Inductive Response :=
| ROk (b : Body)
| RErr (e : HttpErrorResponse).

(** An outgoing [HttpRequest]: the [Authorization: Bearer] header it carries
    and its [withCredentials] flag. *)
Record Request := mkRequest {
  method : string;
  url : string;
  bearer : option string;
  withCredentials : bool
}.

(** The decoded payload of a JWT, as returned by [parseJwt]: only [exp]
    (seconds since the epoch) is read by the client. *)
Record JwtPayload := mkPayload { exp : option Z }.

(** Errors travelling through the observables. *)
Inductive Exn :=
| ExnMessage (m : string)              (* [new Error(m)] *)
| ExnHttp (e : HttpErrorResponse)      (* an [HttpErrorResponse] rethrown as is *)
| ExnType                              (* a [TypeError] (property of undefined) *)
| ExnFuel.                             (* the interceptor chain nested too deep *)

(** Observable side effects, recorded in a trace. *)
Inductive Effect :=
| ESend (r : Request)        (* a request leaves the browser *)
| EVerifyToken               (* [AuthService.verifyToken()] (refresh) is invoked *)
| ELogout (nav : bool)       (* [AuthService.logout(nav)] is invoked *)
| ENavigate (path : string)  (* [router.navigate([path])] *)
| ESnack (msg : string).     (* [snackBar.open(msg, ...)] *)

(** A logout POST in flight: the [navigateToLogin] argument of the [logout]
    call that sent it, the request as the interceptors passed it on, and the
    response the server gave it (delivered later, see [logout_complete]). *)
Record LogoutCall := mkLogoutCall {
  lc_nav : bool;
  lc_req : Request;
  lc_resp : Response
}.

(** The state of the [AuthService] singleton together with the timers and
    pending callbacks it owns.
    - [current]: [userSubject.value];
    - [refreshTokenTimeout]: the handle field of the service;
    - [timers]: the refresh [setTimeout] callbacks pending in the browser
      (handle, absolute fire time in ms);
    - [settling]: pending 50 ms callbacks of [handleAuthentication], each
      holding the user it will install;
    - [pendingLogout]: logout POSTs in flight, oldest first. *)
Record Client := mkClient {
  current : option User;
  refreshTokenTimeout : option positive;
  timers : list (positive * Z);
  next_handle : positive;
  settling : list User;
  pendingLogout : list LogoutCall
}.

Definition set_current (u : option User) (c : Client) : Client :=
  mkClient u (refreshTokenTimeout c) (timers c) (next_handle c) (settling c)
    (pendingLogout c).

Definition set_timer (h : option positive) (ts : list (positive * Z))
  (nh : positive) (c : Client) : Client :=
  mkClient (current c) h ts nh (settling c) (pendingLogout c).

Definition set_settling (s : list User) (c : Client) : Client :=
  mkClient (current c) (refreshTokenTimeout c) (timers c) (next_handle c) s
    (pendingLogout c).

Definition set_pendingLogout (p : list LogoutCall) (c : Client) : Client :=
  mkClient (current c) (refreshTokenTimeout c) (timers c) (next_handle c)
    (settling c) p.

(** The world the client runs in: its state, the clock ([Date.now()] in ms),
    the number of requests sent so far and the trace of effects (most recent
    first). *)
Record World := mkWorld {
  client : Client;
  now : Z;
  calls : nat;
  trace : list Effect
}.

(* ------------------------------------------------------------------------- *)
(** ** Client: a state and error monad for observables *)

Inductive Res (A : Type) :=
| Ok (a : A)
| Throw (e : Exn).
Arguments Ok {A} a.
Arguments Throw {A} e.

Definition M (A : Type) : Type := World -> Res A * World.

Definition ret {A} (a : A) : M A := fun w => (Ok a, w).

Definition bind {A B} (m : M A) (k : A -> M B) : M B :=
  fun w => match m w with
           | (Ok a, w') => k a w'
           | (Throw e, w') => (Throw e, w')
           end.

Definition throw {A} (e : Exn) : M A := fun w => (Throw e, w).

(** [catchError] *)
Definition catchError {A} (m : M A) (h : Exn -> M A) : M A :=
  fun w => match m w with
           | (Throw e, w') => h e w'
           | r => r
           end.

Notation "x <- m ;; k" := (bind m (fun x => k))
  (at level 61, m at next level, right associativity).

Definition get_world : M World := fun w => (Ok w, w).

Definition get_client : M Client := fun w => (Ok (client w), w).

Definition modify_client (f : Client -> Client) : M unit :=
  fun w => (Ok tt, mkWorld (f (client w)) (now w) (calls w) (trace w)).

Definition tell (e : Effect) : M unit :=
  fun w => (Ok tt, mkWorld (client w) (now w) (calls w) (e :: trace w)).

(** The time value limit of ECMAScript [Date] (TimeClip), in ms. *)
Definition max_time : Z := 8640000000000000.

(** The delay [setTimeout(cb, t)] waits for: [t] is converted to a WebIDL
    [long] (taken modulo 2^32 into the signed 32-bit range) and a negative
    value is clamped to 0 (HTML timer initialisation steps). *)
Definition setTimeout_delay (t : Z) : Z :=
  let m := t mod 2 ^ 32 in
  let l := if 2 ^ 31 <=? m then m - 2 ^ 32 else m in
  if l <? 0 then 0 else l.

(* ------------------------------------------------------------------------- *)
(** ** Client: [AuthService] and the interceptors *)

Section ClientModel.

(** The server, as seen from the browser: the response to the [n]-th request
    sent. *)
Variable server : nat -> Request -> Response.

(** [AuthService.parseJwt]: base64url decoding and [JSON.parse] of the
    payload segment; [None] when it throws. *)
Variable parseJwt : string -> option JwtPayload.

(** [tokenData && tokenData.exp]: the expiry when present and truthy. *)
Definition jwt_exp (t : string) : option Z :=
  match parseJwt t with
  | Some p =>
      match exp p with
      | Some e => if e =? 0 then None else Some e
      | None => None
      end
  | None => None
  end.

(** A request leaving the browser. *)
Definition send (req : Request) : M Response :=
  fun w => (Ok (server (calls w) req),
            mkWorld (client w) (now w) (S (calls w)) (ESend req :: trace w)).

(** [HttpBackend]: an error status errors the observable. *)
Definition backend (req : Request) : M Body :=
  r <- send req ;;
  match r with
  | ROk b => ret b
  | RErr e => throw (ExnHttp e)
  end.

(** [AuthService.stopRefreshTokenTimer] *)
Definition stopRefreshTokenTimer (c : Client) : Client :=
  match refreshTokenTimeout c with
  | Some h =>
      set_timer None
        (filter (fun ht => negb (Pos.eqb h (fst ht))) (timers c))
        (next_handle c) c
  | None => c
  end.

(** [AuthService.startRefreshTokenTimer] at time [now_ms]; the boolean is
    [true] when [verifyToken().subscribe()] is called immediately.
    [new Date(exp * 1000)] is an invalid date beyond [max_time], and then
    [timeout] is [NaN], which is not [> 0]. In range the double arithmetic is
    exact. The timer is due after [setTimeout_delay timeout] ms. *)
Definition startRefreshTokenTimer (now_ms : Z) (c0 : Client) : Client * bool :=
  let c := stopRefreshTokenTimer c0 in
  match current c with
  | None => (c, false)
  | Some u =>
      if negb (truthy (token u)) then (c, false) else
      match jwt_exp (token u) with
      | None => (c, false)
      | Some e =>
          if max_time <? Z.abs (e * 1000) then (c, true) else
          let timeout := e * 1000 - now_ms - 60 * 1000 in
          if 0 <? timeout then
            let h := next_handle c in
            (set_timer (Some h) (timers c ++ [(h, now_ms + setTimeout_delay timeout)])
               (Pos.succ h) c, false)
          else (c, true)
      end
  end.

(** The refresh [setTimeout] callback runs: it leaves the queue (the handle
    field is not reset) and calls [verifyToken().subscribe()]. *)
Definition fire_refresh_timer (c : Client) : Client * bool :=
  match timers c with
  | [] => (c, false)
  | _ :: rest => (set_timer (refreshTokenTimeout c) rest (next_handle c) c, true)
  end.

(** The 50 ms callback of [handleAuthentication] runs: it installs the user
    and starts the refresh timer. *)
Definition settle_fire (now_ms : Z) (c : Client) : Client * bool :=
  match settling c with
  | [] => (c, false)
  | u :: rest => startRefreshTokenTimer now_ms (set_current (Some u) (set_settling rest c))
  end.

(** [AuthService.handleAuthentication], up to the 50 ms [setTimeout]: the
    state is cleared synchronously and the user is installed by
    [settle_fire] later. *)
Definition handleAuthentication (r : User) : M unit :=
  if negb (truthy (token r)) || negb (truthy (id r)) then ret tt
  else match jwt_exp (token r) with
       | None => ret tt
       | Some _ =>
           modify_client (fun c => set_settling (settling c ++ [r]) (set_current None c))
       end.

Definition with_bearer (t : string) (req : Request) : Request :=
  mkRequest (method req) (url req) (Some t) (withCredentials req).

Definition with_credentials (req : Request) : Request :=
  mkRequest (method req) (url req) (bearer req) true.

(** The POST of [verifyToken]: explicit bearer header and credentials. *)
Definition refreshRequest (t : string) : Request :=
  mkRequest "POST" (authApiUrl ++ "/refresh") (Some t) true.

Definition token_of (b : Body) : string :=
  match data_token b with Some t => t | None => "" end.

(** [AuthService.verifyToken] (the client's refresh operation), issuing its
    POST through [post]. *)
Definition verifyToken (post : Request -> M Body) : M User :=
  _ <- tell EVerifyToken ;;
  w <- get_world ;;
  match current (client w) with
  | None => throw (ExnMessage "No authentication token available")
  | Some u =>
      if negb (truthy (token u))
      then throw (ExnMessage "No authentication token available")
      else
        let currentTime := now w / 1000 in
        let reissue :=
          catchError
            (b <- post (refreshRequest (token u)) ;;
             match data_user b with
             | None => throw ExnType
             | Some ud =>
                 let ar := mkUser (ud_id ud) (ud_name ud) (ud_email ud)
                             (ud_role ud) (token_of b) in
                 _ <- handleAuthentication ar ;;
                 ret ar
             end)
            (fun e => throw e) in
        match jwt_exp (token u) with
        | Some e => if e <? currentTime then throw (ExnMessage "Token expired")
                    else reissue
        | None => reissue
        end
  end.

(** The request as [AuthInterceptor] rewrites it. *)
Definition attach (c : Client) (req : Request) : Request :=
  let isApiUrl := startsWith (url req) apiUrl in
  let req1 :=
    match current c with
    | Some u => if isApiUrl && truthy (token u) then with_bearer (token u) req else req
    | None => req
    end in
  if isApiUrl then with_credentials req1 else req1.

(** The POST of [logout]. *)
Definition logoutRequest : Request :=
  mkRequest "POST" (authApiUrl ++ "/logout") None true.

(** [AuthService.logout(navigateToLogin)]: the timer is stopped and the POST
    to [/auth/logout] is sent through the chain: [AuthInterceptor] rewrites it
    (the user is still set, so it carries the bearer token) and it leaves the
    browser now; [ErrorInterceptor] and the subscription callbacks see its
    response later, in [logout_complete]. *)
Definition logout (navigateToLogin : bool) : M unit :=
  _ <- tell (ELogout navigateToLogin) ;;
  _ <- modify_client stopRefreshTokenTimer ;;
  c <- get_client ;;
  let req := attach c logoutRequest in
  r <- send req ;;
  modify_client (fun c =>
    set_pendingLogout (pendingLogout c ++ [mkLogoutCall navigateToLogin req r]) c).

(** [AuthInterceptor.intercept] *)
Definition auth_intercept (req : Request) (next : Request -> M Body) : M Body :=
  c <- get_client ;;
  next (attach c req).

Definition session_expired : string := "Session expired. Please log in again.".

(** Open the snack bar and error with [new Error(m)]. *)
Definition finish {A} (m : string) : M A :=
  _ <- tell (ESnack m) ;; throw (ExnMessage m).

(** The message computed before the [switch]. *)
Definition initial_message (e : HttpErrorResponse) : string :=
  let fallback :=
    if truthy (statusText e)
    then string_of_Z (status e) ++ ": " ++ statusText e
    else "An unknown error occurred" in
  match client_side e with
  | Some m => "Error: " ++ m
  | None =>
      match error_message e with
      | Some m => if truthy m then m else fallback
      | None => fallback
      end
  end.

(** [ErrorInterceptor.handleUnauthorizedError], refreshing with [refresh]. *)
Definition handleUnauthorizedError (refresh : M User) (req : Request)
  (next : Request -> M Body) : M Body :=
  catchError
    (_ <- refresh ;;
     c <- get_client ;;
     let req' :=
       match current c with
       | Some u => if truthy (token u) then with_bearer (token u) req else req
       | None => req
       end in
     next req')
    (fun _ =>
       _ <- logout true ;;
       _ <- tell (ENavigate "/login") ;;
       finish session_expired).

(** The [catchError] body of [ErrorInterceptor.intercept] on an
    [HttpErrorResponse]. *)
Definition on_error (refresh : M User) (req : Request) (next : Request -> M Body)
  (e : HttpErrorResponse) : M Body :=
  let msg := initial_message e in
  match client_side e with
  | Some _ => finish msg
  | None =>
      if status e =? 401 then
        (c <- get_client ;;
         let isApiUrl := startsWith (url req) apiUrl in
         let isRefreshRequest := includes (url req) "/refresh" in
         let isLoginRequest := includes (url req) "/login" in
         let isTasksRequest := includes (url req) "/tasks" in
         let hasUser := match current c with Some _ => true | None => false end in
         if isLoginRequest then finish "Invalid email or password"
         else if isTasksRequest then throw (ExnHttp e)
         else if isApiUrl && negb isRefreshRequest && hasUser
         then handleUnauthorizedError refresh req next
         else if isRefreshRequest
         then (_ <- logout true ;; _ <- tell (ENavigate "/login") ;; finish session_expired)
         else if negb hasUser then finish "Authentication required. Please log in."
         else finish msg)
      else if status e =? 403 then
        (_ <- tell (ENavigate "/tasks") ;;
         finish "You do not have permission to access this resource.")
      else if status e =? 404 then finish "Resource not found."
      else if status e =? 500 then finish "Server error. Please try again later."
      else finish msg
  end.

(** The [catchError] handler of [ErrorInterceptor.intercept]. *)
Definition on_exn (refresh : M User) (req : Request) (next : Request -> M Body)
  (ex : Exn) : M Body :=
  match ex with
  | ExnHttp e => on_error refresh req next e
  | other => throw other
  end.

(** [ErrorInterceptor.intercept] *)
Definition error_intercept (refresh : M User) (req : Request)
  (next : Request -> M Body) : M Body :=
  catchError (next req) (on_exn refresh req next).

(** [HttpClient] with the interceptors [AuthInterceptor] then
    [ErrorInterceptor] (the order of [app.module.ts]) in front of the backend.
    The refresh POST of a recovery goes through the same chain again; [fuel]
    bounds that nesting. *)
Fixpoint http (fuel : nat) (req : Request) : M Body :=
  match fuel with
  | O => throw ExnFuel
  | S f => auth_intercept req (fun r => error_intercept (verifyToken (http f)) r backend)
  end.

(** The chain as the application uses it. *)
Definition pipeline : Request -> M Body := http 2.

(** The response of the oldest logout POST in flight is delivered: it passes
    [ErrorInterceptor] (an error status is handled there, which may open a
    snack bar, refresh, retry or log out again), then reaches the [next] or
    the [error] callback of [logout]'s subscription; both clear the user and
    navigate to [/login] when asked to. *)
Definition logout_complete : M unit :=
  c <- get_client ;;
  match pendingLogout c with
  | [] => ret tt
  | lc :: rest =>
      _ <- modify_client (set_pendingLogout rest) ;;
      let callback :=
        (_ <- modify_client (set_current None) ;;
         if lc_nav lc then tell (ENavigate "/login") else ret tt) in
      catchError
        (_ <- catchError
                (match lc_resp lc with
                 | ROk b => ret b
                 | RErr e => throw (ExnHttp e)
                 end)
                (on_exn (verifyToken (http 1)) (lc_req lc) backend) ;;
         callback)
        (fun _ => callback)
  end.

(** [startRefreshTokenTimer] inside an observable: an immediate
    [verifyToken().subscribe()] has no error callback. *)
Definition startRefreshTokenTimerM : M unit :=
  w <- get_world ;;
  let (c', fire) := startRefreshTokenTimer (now w) (client w) in
  _ <- modify_client (fun _ => c') ;;
  if fire then catchError (_ <- verifyToken pipeline ;; ret tt) (fun _ => ret tt)
  else ret tt.

(** The GET of [autoLogin]. *)
Definition verifyRequest : Request :=
  mkRequest "GET" (authApiUrl ++ "/verify") None true.

(** [AuthService.autoLogin] *)
Definition autoLogin : M unit :=
  catchError
    (b <- pipeline verifyRequest ;;
     match data_user b, data_token b with
     | Some ud, Some t =>
         if truthy (ud_id ud) && truthy t then
           _ <- modify_client
                  (set_current (Some (mkUser (ud_id ud) (ud_name ud) (ud_email ud)
                                        (ud_role ud) t))) ;;
           startRefreshTokenTimerM
         else ret tt
     | _, _ => ret tt
     end)
    (fun _ => modify_client (set_current None)).

End ClientModel.

(** [AuthService.isAuthenticated]: [!!this.userSubject.value] *)
Definition isAuthenticated (c : Client) : bool :=
  match current c with Some _ => true | None => false end.

(** [AuthService.hasRole(role)]: [!!user && user.role === role] *)
Definition hasRole (c : Client) (r : string) : bool :=
  match current c with Some u => String.eqb (role u) r | None => false end.

(** Observers of a trace. *)
Fixpoint count_verify (l : list Effect) : nat :=
  match l with
  | [] => O
  | EVerifyToken :: l' => S (count_verify l')
  | _ :: l' => count_verify l'
  end.

Fixpoint count_sends (l : list Effect) : nat :=
  match l with
  | [] => O
  | ESend _ :: l' => S (count_sends l')
  | _ :: l' => count_sends l'
  end.

Fixpoint count_sends_to (u : string) (l : list Effect) : nat :=
  match l with
  | [] => O
  | ESend r :: l' => ((if String.eqb (url r) u then 1 else 0) + count_sends_to u l')%nat
  | _ :: l' => count_sends_to u l'
  end.

(** ** Client: the transitions of the session state

    The ways the [AuthService] singleton changes its session and timer
    fields: arming the refresh timer, a refresh timer firing, the 50 ms
    callback of [handleAuthentication], [handleAuthentication] itself,
    [logout], the completion of the logout POST, a request through the
    interceptor chain (which may refresh and log out), a call of
    [verifyToken] (the refresh callback or an immediate refresh), and a direct
    [userSubject.next(...)]. *)
Section Steps.

Variable parseJwt : string -> option JwtPayload.

Inductive client_step : Client -> Client -> Prop :=
| step_start now_ms c : client_step c (fst (startRefreshTokenTimer parseJwt now_ms c))
| step_fire c : client_step c (fst (fire_refresh_timer c))
| step_settle now_ms c : client_step c (fst (settle_fire parseJwt now_ms c))
| step_handle r w : client_step (client w) (client (snd (handleAuthentication parseJwt r w)))
| step_logout server nav w : client_step (client w) (client (snd (logout server nav w)))
| step_logout_complete server w :
    client_step (client w) (client (snd (logout_complete server parseJwt w)))
| step_request server req w :
    client_step (client w) (client (snd (pipeline server parseJwt req w)))
| step_verify server w :
    client_step (client w) (client (snd (verifyToken parseJwt (pipeline server parseJwt) w)))
| step_set_user u c : client_step c (set_current u c).

End Steps.

(** A computation whose changes of the client state stay within the
    relation [R]. *)
Definition keeps (R : Client -> Client -> Prop) {A} (m : M A) : Prop :=
  forall w, R (client w) (client (snd (m w))).

(** At most one refresh callback is pending, and it is the one whose handle
    the service holds. *)
Definition one_timer (c : Client) : Prop :=
  (length (timers c) <= 1)%nat /\
  forall h t, In (h, t) (timers c) -> refreshTokenTimeout c = Some h.

(** ** Client: concrete scenarios *)

Definition demo_user : User :=
  mkUser "6650f1c2" "Alice" "alice@example.com" "user" "header.payload.sig".

(** Token expiry of the scenarios, in seconds. *)
Definition demo_exp : Z := 1700003600.

(** A [parseJwt] for the scenarios: every non-empty token decodes to a
    payload expiring at [demo_exp]. *)
Definition demo_parseJwt (t : string) : option JwtPayload :=
  if String.eqb t "" then None else Some (mkPayload (Some demo_exp)).

Definition demo_session : Client := mkClient (Some demo_user) None [] 1 [] [].

(** One hour before the token expires. *)
Definition demo_world : World := mkWorld demo_session 1700000000000 0 [].

(** Ten seconds after the token expired. *)
Definition demo_world_late : World := mkWorld demo_session 1700003610000 0 [].

Definition unauthorized : HttpErrorResponse :=
  mkHttpError 401 (Some "Invalid or expired token") "Unauthorized" None.

(** A server answering every request with 401. *)
Definition always_401 (n : nat) (r : Request) : Response := RErr unauthorized.

Definition tasks_request : Request := mkRequest "GET" (apiUrl ++ "/tasks") None false.

Definition profile_request : Request :=
  mkRequest "GET" (apiUrl ++ "/users/profile/me") None false.

Definition login_request : Request :=
  mkRequest "POST" (authApiUrl ++ "/login") None false.

(* ------------------------------------------------------------------------- *)
(** ** Server: entity, repository, use cases, controllers, middlewares, routes *)

Module Server.

(** *** [User.isValidEmail]: [/^[^\s@]+@[^\s@]+\.[^\s@]+$/] *)

(** A character of [[^\s@]]. *)
Definition plain (c : ascii) : bool := negb (is_ws c) && negb (Ascii.eqb c "@").

(** A ['.'] with at least one character before it and one after it. *)
Fixpoint has_inner_dot (l : list ascii) : bool :=
  match l with
  | _ :: ((y :: _ :: _) as rest) => Ascii.eqb y "." || has_inner_dot rest
  | _ => false
  end.

(** [[^\s@]+\.[^\s@]+$] *)
Definition domain_ok (d : list ascii) : bool := forallb plain d && has_inner_dot d.

(** [^[^\s@]+@] followed by the domain; [seen] records that the local part
    is not empty. *)
Fixpoint email_ok (l : list ascii) (seen : bool) : bool :=
  match l with
  | [] => false
  | c :: rest =>
      if Ascii.eqb c "@" then seen && domain_ok rest
      else negb (is_ws c) && email_ok rest true
  end.

Definition isValidEmail (email : string) : bool :=
  email_ok (list_ascii_of_string email) false.

(** *** Errors and results *)

(** A thrown value: its [name], its [message] and, for an [AppError], its
    [statusCode]. *)
Record Error := mkError { error_name : string; message : string; statusCode : option Z }.

(** [new Error(m)] *)
Definition plain_error (m : string) : Error := mkError "Error" m None.

(** [new AppError(m, code)]: the class sets no [name] of its own. *)
Definition AppError (m : string) (code : Z) : Error := mkError "Error" m (Some code).

(** The [TypeError] of [undefined.toLowerCase()]. *)
Definition undefined_toLowerCase : Error :=
  mkError "TypeError" "Cannot read properties of undefined (reading 'toLowerCase')" None.

(** The error of bcryptjs's [compare] when the candidate is not a string. *)
Definition bcrypt_illegal_arguments : Error :=
  plain_error "Illegal arguments: undefined, string".

Definition dq : string := String (ascii_of_nat 34) EmptyString.

(** The [CastError] of Mongoose for an [_id] it cannot cast to an ObjectId. *)
Definition CastError (id : string) : Error :=
  mkError "CastError"
    ("Cast to ObjectId failed for value " ++ dq ++ id ++ dq ++ " (type string) at path "
       ++ dq ++ "_id" ++ dq ++ " for model " ++ dq ++ "User" ++ dq) None.

(** The outcome of an [async] function: resolved or rejected. *)
Inductive Outcome (A : Type) :=
| Done (a : A)
| Fail (e : Error).
Arguments Done {A} a.
Arguments Fail {A} e.

(** *** The [User] entity *)

(** [IUser], as handed to the constructor ([""] for an absent field). *)
Record IUser := mkIUser {
  name : string;
  email : string;
  password : string;
  role : string
}.

(** [new User(userData)]: the fields are copied ([role || UserRole.USER]),
    then [validate()] runs. *)
Definition User_new (userData : IUser) : Outcome IUser :=
  let u := mkIUser (name userData) (email userData) (password userData)
             (if truthy (role userData) then role userData else "user") in
  if negb (truthy (name u)) || Nat.ltb (String.length (trim (name u))) 2
  then Fail (plain_error "Name must be at least 2 characters long")
  else if negb (truthy (email u)) || negb (isValidEmail (email u))
  then Fail (plain_error "Valid email is required")
  else if negb (truthy (password u)) || Nat.ltb (String.length (password u)) 6
  then Fail (plain_error "Password must be at least 6 characters long")
  else Done u.

(** *** The users collection *)

(** A stored user document ([password] holds the bcrypt hash). *)
Record UserDoc := mkUserDoc {
  doc_id : string;
  doc_name : string;
  doc_email : string;
  doc_password : string;
  doc_role : string
}.

Definition Store := list UserDoc.

(** A JWT payload as signed ([name] only in the refresh endpoint's). *)
Record TokenPayload := mkTokenPayload {
  tp_id : string;
  tp_email : string;
  tp_role : string;
  tp_name : option string
}.

(** The decoded payload of a verified token ([cl_id] is [None] when the
    payload has no [id]). *)
Record Claims := mkClaims {
  cl_id : option string;
  cl_email : string;
  cl_role : string
}.

(** [jwt.verify(token, secret)]: the payload, or the error it throws:
    [TokenExpiredError], [NotBeforeError] or [JsonWebTokenError]. *)
Inductive JwtResult :=
| JwtValid (c : Claims)
| JwtExpired
| JwtNotBefore
| JwtInvalid.

(** The libraries the server calls: bcrypt, MongoDB's ObjectId (a new id, and
    whether Mongoose can cast a string to one) and jsonwebtoken (with the
    configured secret and expiry). *)
Record Libs := mkLibs {
  bcrypt_hash : string -> string;
  bcrypt_compare : string -> string -> bool;
  fresh_id : Store -> string;
  objectId_ok : string -> bool;
  jwt_sign : TokenPayload -> string;
  jwt_verify : string -> JwtResult
}.

(** *** HTTP *)

(** The bodies the server sends.  The JSON of a user never holds its
    password: the schema's [toJSON] drops it, and the use cases copy only
    [id], [name], [email], [role] and the dates. *)
Inductive Json :=
| JErrorMessage (message : string)         (* [{error: {message}}] of [errorHandler] *)
| JErrorText (error : string)              (* [{error: '...'}] of the middlewares *)
| JFail (message : string)                 (* [{success: false, message}] *)
| JOk (message : string)                   (* [{success: true, message}] *)
| JUser (user : UserDoc)                   (* [{success, message, data: user}] *)
| JAuth (user : UserDoc) (token : string)  (* [{success, message, data: {user, token}}] *)
| JStatus (status message : string)        (* [{status, message}] of [/health] *)
| JWelcome (message documentation : string) (* [{message, documentation}] of [/] *)
| JEmpty                                   (* no body *)
| JPage (content : string).                (* a body that is not JSON *)

Record HttpResp := mkResp { resp_status : Z; resp_body : Json }.

(** What becomes of a request: a response, or none at all.  Express 4 does
    not look at the promise an [async] handler returns: when it rejects, no
    response is sent and the error never reaches [errorHandler]. *)
Inductive Answer :=
| Reply (r : HttpResp)
| Unanswered (reason : Error).

(** An inbound request: method, request target (path and query), the
    [Authorization] header, the [token] cookie the browser sent, the error of
    [express.json()] or [express.urlencoded()] when they cannot read the body,
    and the fields of the parsed body ([None] when absent). *)
Record HttpReq := mkHttpReq {
  hr_method : string;
  hr_path : string;
  authorization : option string;
  cookie_token : option string;
  parse_error : option Error;
  body_name : option string;
  body_email : option string;
  body_password : option string
}.

(** [errorHandler] *)
Definition errorHandler (err : Error) : HttpResp :=
  let code := match statusCode err with
              | Some c => if c =? 0 then 500 else c
              | None => 500
              end in
  mkResp code (JErrorMessage (if truthy (message err) then message err
                              else "Internal Server Error")).

(** [notFound], then [errorHandler] ([req.originalUrl] is the request
    target). *)
Definition notFound (req : HttpReq) : HttpResp :=
  errorHandler (AppError ("Route " ++ hr_path req ++ " not found") 404).

(** [s.split(' ')[1]] for a string that contains a space. *)
Fixpoint after_first_space (s : string) : string :=
  match s with
  | EmptyString => EmptyString
  | String c s' => if Ascii.eqb c " " then s' else after_first_space s'
  end.

Fixpoint upto_space (s : string) : string :=
  match s with
  | EmptyString => EmptyString
  | String c s' => if Ascii.eqb c " " then EmptyString else String c (upto_space s')
  end.

Definition split_space_1 (s : string) : string := upto_space (after_first_space s).

(** [s.replace(pat, rep)]: the first occurrence only. *)
Fixpoint replace_first (s pat rep : string) : string :=
  if String.prefix pat s
  then rep ++ substring (String.length pat) (String.length s - String.length pat) s
  else match s with
       | EmptyString => EmptyString
       | String c s' => String c (replace_first s' pat rep)
       end.

(** A middleware either passes to the next handler or responds. *)
Inductive Mw (A : Type) :=
| MwNext (a : A)
| MwRespond (r : HttpResp).
Arguments MwNext {A} a.
Arguments MwRespond {A} r.

Section ServerCode.

Variable L : Libs.

(** *** [UserRepository] *)

(** [countDocuments({ email })] *)
Definition countDocuments_email (s : Store) (em : string) : nat :=
  length (filter (fun d => String.eqb (doc_email d) em) s).

(** [UserRepository.emailExists] *)
Definition emailExists (s : Store) (email : string) : bool :=
  Nat.ltb 0 (countDocuments_email s (toLowerCase email)).

(** [UserRepository.findByEmail] *)
Definition findByEmail (s : Store) (email : string) : option UserDoc :=
  find (fun d => String.eqb (doc_email d) (toLowerCase email)) s.

(** [UserModel.findById] (and [UserRepository.findById], which calls it):
    Mongoose first casts the id to an ObjectId. *)
Definition findById (s : Store) (id : string) : Outcome (option UserDoc) :=
  if objectId_ok L id then Done (find (fun d => String.eqb (doc_id d) id) s)
  else Fail (CastError id).

(** [UserModel.create(userData)]: the schema's setters ([trim] on [name];
    [trim] and [lowercase] on [email]), its validators ([required],
    [minlength], [match], [enum]) on the set values, the unique index on
    [email], then the [pre('save')] hook that stores the bcrypt hash of the
    password. *)
Definition UserModel_create (userData : IUser) (s : Store) : Outcome UserDoc * Store :=
  let nm := trim (name userData) in
  let em := toLowerCase (trim (email userData)) in
  let pw := password userData in
  let rl := if truthy (role userData) then role userData else "user" in
  if negb (truthy nm && Nat.leb 2 (String.length nm)
           && truthy em && isValidEmail em
           && truthy pw && Nat.leb 6 (String.length pw)
           && (String.eqb rl "admin" || String.eqb rl "user"))
  then (Fail (plain_error "User validation failed"), s)
  else if Nat.ltb 0 (countDocuments_email s em)
  then (Fail (plain_error "E11000 duplicate key error collection: users index: email_1"), s)
  else
    let d := mkUserDoc (fresh_id L s) nm em (bcrypt_hash L pw) rl in
    (Done d, (s ++ [d])%list).

(** [UserRepository.create]: [new User(userData)] for its validation, then
    [UserModel.create(userData)]. *)
Definition UserRepository_create (userData : IUser) (s : Store) : Outcome UserDoc * Store :=
  match User_new userData with
  | Fail e => (Fail e, s)
  | Done _ => UserModel_create userData s
  end.

(** *** Use cases *)

Record RegisterUserInput := mkRegisterUserInput {
  ri_name : string;
  ri_email : string;
  ri_password : string;
  ri_role : string
}.

(** [RegisterUserUseCase.execute] *)
Definition RegisterUserUseCase_execute (input : RegisterUserInput) (s : Store)
  : Outcome UserDoc * Store :=
  if emailExists s (ri_email input)
  then (Fail (plain_error "Email already in use"), s)
  else
    match User_new (mkIUser (ri_name input) (ri_email input) (ri_password input)
                      (if truthy (ri_role input) then ri_role input else "user")) with
    | Fail e => (Fail e, s)
    | Done user => UserRepository_create user s
    end.

Record LoginUserOutput := mkLoginUserOutput { lo_user : UserDoc; lo_token : string }.

(** [userDoc.comparePassword(candidate)]: bcryptjs's [compare], which
    rejects a candidate that is not a string. *)
Definition comparePassword (userDoc : UserDoc) (candidate : option string) : Outcome bool :=
  match candidate with
  | None => Fail bcrypt_illegal_arguments
  | Some p => Done (bcrypt_compare L p (doc_password userDoc))
  end.

(** [LoginUserUseCase.execute], on the [email] and [password] of the body
    ([None] when absent: [findByEmail] then throws at [email.toLowerCase()]). *)
Definition LoginUserUseCase_execute (email password : option string) (s : Store)
  : Outcome LoginUserOutput :=
  match email with
  | None => Fail undefined_toLowerCase
  | Some em =>
  match findByEmail s em with
  | None => Fail (plain_error "Invalid email or password")
  | Some user =>
      match findById s (doc_id user) with
      | Fail e => Fail e
      | Done None => Fail (plain_error "User not found")
      | Done (Some userDoc) =>
          match comparePassword userDoc password with
          | Fail e => Fail e
          | Done false => Fail (plain_error "Invalid email or password")
          | Done true =>
              Done (mkLoginUserOutput user
                      (jwt_sign L (mkTokenPayload (doc_id user) (doc_email user)
                                     (doc_role user) None)))
          end
      end
  end
  end.

(** *** [AuthController] *)

(** A body field as a string: an absent one is [""]. *)
Definition or_empty (o : option string) : string :=
  match o with Some v => v | None => "" end.

(** [AuthController.register] on the body's [name], [email] and [password].
    When [email] is absent, the first statement of the use case,
    [emailExists(undefined)], throws at [email.toLowerCase()].  An absent
    [name] or [password] is falsy, as [""] is, and reaches nothing but
    [User.validate], which rejects both with the same message: it is passed
    as [""].  The handler is [async]: what it throws, it throws into a
    promise that Express 4 ignores, so the request gets no response. *)
Definition AuthController_register (name email password : option string) (s : Store)
  : Answer * Store :=
  match email with
  | None => (Unanswered undefined_toLowerCase, s)
  | Some em =>
      match RegisterUserUseCase_execute
              (mkRegisterUserInput (or_empty name) em (or_empty password) "") s with
      | (Done user, s') => (Reply (mkResp 201 (JUser user)), s')
      | (Fail e, s') =>
          (Unanswered (if String.eqb (message e) "Email already in use"
                       then AppError "Email already in use" 400 else e), s')
      end
  end.

(** [AuthController.login] ([async], like [register]). *)
Definition AuthController_login (email password : option string) (s : Store) : Answer :=
  match LoginUserUseCase_execute email password s with
  | Done out => Reply (mkResp 200 (JAuth (lo_user out) (lo_token out)))
  | Fail e =>
      Unanswered (if String.eqb (message e) "Invalid email or password"
                  then AppError "Invalid email or password" 401 else e)
  end.

(** [verifyToken] of [jwt.utils]: [jwt.verify], then the check that the
    payload has an [id]. *)
Inductive VerifyOutcome :=
| Verified (id email role : string)
| VerifyThrew (errorName : string).

Definition utils_verifyToken (token : string) : VerifyOutcome :=
  match jwt_verify L token with
  | JwtValid c =>
      match cl_id c with
      | Some i => Verified i (cl_email c) (cl_role c)
      | None => VerifyThrew "Error"
      end
  | JwtExpired => VerifyThrew "TokenExpiredError"
  | JwtNotBefore => VerifyThrew "NotBeforeError"
  | JwtInvalid => VerifyThrew "JsonWebTokenError"
  end.

(** [AuthController.refreshToken]; [cookies] is [req.cookies], [None] when it
    is undefined.  Its [try]/[catch] covers the whole body, so it always
    answers. *)
Definition AuthController_refreshToken (cookies : option (option string)) (req : HttpReq)
  (s : Store) : HttpResp :=
  let fail_with errName :=
    if String.eqb errName "TokenExpiredError" then mkResp 401 (JFail "Token expired")
    else if String.eqb errName "JsonWebTokenError" then mkResp 401 (JFail "Invalid token")
    else mkResp 500 (JFail "Failed to refresh token") in
  match cookies with
  | None => fail_with "TypeError"
  | Some ck =>
      let from_header := option_map (fun h => replace_first h "Bearer " "") (authorization req) in
      let token := match ck with
                   | Some t => if truthy t then Some t else from_header
                   | None => from_header
                   end in
      match token with
      | None => mkResp 401 (JFail "No token provided")
      | Some t =>
          if negb (truthy t) then mkResp 401 (JFail "No token provided") else
          match utils_verifyToken t with
          | VerifyThrew n => fail_with n
          | Verified i em rl =>
              match findById s i with
              | Fail e => fail_with (error_name e)
              | Done None => mkResp 401 (JFail "User not found")
              | Done (Some user) =>
                  mkResp 200 (JAuth user (jwt_sign L (mkTokenPayload i em rl
                                                      (Some (doc_name user)))))
              end
          end
      end
  end.

(** *** Middlewares *)

(** [authenticate] *)
Definition authenticate (req : HttpReq) : Mw Claims :=
  match authorization req with
  | None => MwRespond (mkResp 401 (JErrorText "Authentication required"))
  | Some authHeader =>
      if negb (truthy authHeader) || negb (startsWith authHeader "Bearer ")
      then MwRespond (mkResp 401 (JErrorText "Authentication required"))
      else
        let token := split_space_1 authHeader in
        if negb (truthy token)
        then MwRespond (mkResp 401 (JErrorText "Authentication token missing"))
        else match jwt_verify L token with
             | JwtValid c => MwNext c
             | _ => MwRespond (mkResp 401 (JErrorText "Invalid or expired token"))
             end
  end.

(** [validateToken] *)
Definition validateToken (req : HttpReq) : Mw unit :=
  match authorization req with
  | None => MwRespond (mkResp 401 (JErrorText "Token required"))
  | Some authHeader =>
      if negb (truthy authHeader) || negb (startsWith authHeader "Bearer ")
      then MwRespond (mkResp 401 (JErrorText "Token required"))
      else
        let token := split_space_1 authHeader in
        if negb (truthy token)
        then MwRespond (mkResp 401 (JErrorText "Token missing"))
        else match jwt_verify L token with
             | JwtValid _ => MwNext tt
             | _ => MwRespond (mkResp 401 (JErrorText "Invalid or expired token"))
             end
  end.

(** *** The application *)

(** The handlers of the task and user routers, behind [authenticate]. *)
Variable protected_routes : Claims -> HttpReq -> Store -> Answer * Store.

(** What [swaggerUi.serve] and [swaggerUi.setup] answer under [/api-docs]. *)
Variable docs : HttpReq -> HttpResp.

(** The path of a request target: what precedes the query. *)
Fixpoint pathname (u : string) : string :=
  match u with
  | EmptyString => EmptyString
  | String c u' => if Ascii.eqb c "?" then EmptyString else String c (pathname u')
  end.

(** Express 4 routes are case-insensitive and not strict: the path matches
    [target] in any letter case, with or without one trailing slash. *)
Definition path_eq (p target : string) : bool :=
  let lp := toLowerCase p in
  String.eqb lp (toLowerCase target) || String.eqb lp (toLowerCase target ++ "/").

(** The path of [app.use(base, ...)]: [base] itself or a path below it, in
    any letter case. *)
Definition under (p base : string) : bool :=
  path_eq p base || startsWith (toLowerCase p) (toLowerCase base ++ "/").

(** A route of method [m] at [target]; a [GET] route also answers [HEAD]. *)
Definition method_ok (m : string) (req : HttpReq) : bool :=
  String.eqb (hr_method req) m || (String.eqb m "GET" && String.eqb (hr_method req) "HEAD").

(** [under] on a path and a base already lower-cased. *)
Definition under_l (lp lb : string) : bool :=
  (String.eqb lp lb || String.eqb lp (lb ++ "/")) || startsWith lp (lb ++ "/").

Definition route (m target : string) (req : HttpReq) : bool :=
  method_ok m req && path_eq (pathname (hr_path req)) target.

(** [app.get('/')]: its pattern [^\/?$] takes the path ["/"] only. *)
Definition root_route (req : HttpReq) : bool :=
  method_ok "GET" req && String.eqb (pathname (hr_path req)) "/".

(** The default [PORT] of [config.ts]. *)
Definition PORT : string := "8000".

(** [app]: [helmet()]; [cors(config.cors)], which answers every [OPTIONS]
    request with 204 and no body; the body parsers, whose errors go to
    [errorHandler]; the documentation at [/api-docs]; the auth router at
    [/api/auth], the user and task routers at [/api/users] and [/api/tasks]
    (each starting with [authenticate]); the health and root routes; then
    [notFound].  No cookie parser is installed, so [req.cookies] is
    undefined. *)
Definition app (req : HttpReq) (s : Store) : Answer * Store :=
  let p := pathname (hr_path req) in
  if String.eqb (hr_method req) "OPTIONS" then (Reply (mkResp 204 JEmpty), s) else
  match parse_error req with
  | Some err => (Reply (errorHandler err), s)
  | None =>
  if under p "/api-docs" then (Reply (docs req), s)
  else if under p "/api/auth" then
    if route "POST" "/api/auth/register" req then
      AuthController_register (body_name req) (body_email req) (body_password req) s
    else if route "POST" "/api/auth/login" req then
      (AuthController_login (body_email req) (body_password req) s, s)
    else if route "POST" "/api/auth/refresh" req then
      match validateToken req with
      | MwRespond r => (Reply r, s)
      | MwNext _ => (Reply (AuthController_refreshToken None req s), s)
      end
    else if route "POST" "/api/auth/logout" req then
      (Reply (mkResp 200 (JOk "Logged out successfully")), s)
    else (Reply (notFound req), s)
  else if under p "/api/users" || under p "/api/tasks" then
    match authenticate req with
    | MwRespond r => (Reply r, s)
    | MwNext c => protected_routes c req s
    end
  else if route "GET" "/health" req then
    (Reply (mkResp 200 (JStatus "ok" "Server is running")), s)
  else if root_route req then
    (Reply (mkResp 200 (JWelcome "Welcome to Task Management API"
                          ("http://localhost:" ++ PORT ++ "/api-docs"))), s)
  else (Reply (notFound req), s)
  end.

(** *** The wire between the browser and the server *)

Definition origin : string := "http://localhost:8000".

Definition path_of (u : string) : string :=
  if String.prefix origin u
  then substring (String.length origin) (String.length u - String.length origin) u
  else u.

(** The request the server receives for a client request; the browser
    attaches the [token] cookie to credentialed requests.  The client's
    requests are modelled without bodies. *)
Definition to_http_req (cookie : option string) (r : Request) : HttpReq :=
  mkHttpReq (method r) (path_of (url r))
    (option_map (fun t => "Bearer " ++ t) (bearer r))
    (if withCredentials r then cookie else None) None None None None.

Definition reason_phrase (code : Z) : string :=
  if code =? 400 then "Bad Request"
  else if code =? 401 then "Unauthorized"
  else if code =? 403 then "Forbidden"
  else if code =? 404 then "Not Found"
  else if code =? 500 then "Internal Server Error"
  else "".

(** The response as the client's [HttpClient] sees it. *)
Definition to_response (r : HttpResp) : Response :=
  let code := resp_status r in
  if (200 <=? code) && (code <? 300) then
    match resp_body r with
    | JAuth u t =>
        ROk (mkBody (Some (mkUserData (doc_id u) (doc_name u) (doc_email u) (doc_role u)))
                    (Some t))
    | _ => ROk (mkBody None None)
    end
  else
    RErr (mkHttpError code
            (match resp_body r with
             | JFail m | JOk m | JStatus _ m | JWelcome m _ => Some m
             | _ => None
             end)
            (reason_phrase code) None).

(** The server as the browser sees it, with [cookie] in its cookie jar.  A
    request the server leaves unanswered ends, once the connection is
    dropped, as an [HttpErrorResponse] with status 0 and no body. *)
Definition deployed (s : Store) (cookie : option string) : nat -> Request -> Response :=
  fun _ r =>
    match fst (app (to_http_req cookie r) s) with
    | Reply resp => to_response resp
    | Unanswered _ => RErr (mkHttpError 0 None "Unknown Error" None)
    end.

End ServerCode.

(** *** Validity of users *)

(** The rules of [User.validate]. *)
Definition entity_ok (u : IUser) : Prop :=
  (2 <= String.length (trim (name u)))%nat /\ isValidEmail (email u) = true /\
  (6 <= String.length (password u))%nat.

(** A stored document meets the same rules: its name and email, and the
    password whose hash it holds. *)
Definition stored_ok (L : Libs) (d : UserDoc) : Prop :=
  (2 <= String.length (trim (doc_name d)))%nat /\ isValidEmail (doc_email d) = true /\
  exists p, (6 <= String.length p)%nat /\ doc_password d = bcrypt_hash L p.

(** *** Concrete scenarios *)

Definition demo_libs : Libs :=
  mkLibs (fun p => "$2a$10$" ++ p)
         (fun p h => String.eqb h ("$2a$10$" ++ p))
         (fun s => "id" ++ string_of_Z (Z.of_nat (length s)))
         (fun i => String.prefix "id" i)
         (fun tp => "jwt." ++ tp_id tp)
         (fun t => if String.eqb t "jwt.id0"
                   then JwtValid (mkClaims (Some "id0") "alice@example.com" "user")
                   else if String.eqb t "jwt.bad-id"
                   then JwtValid (mkClaims (Some "bad-id") "mallory@example.com" "user")
                   else if String.eqb t "jwt.early"
                   then JwtNotBefore
                   else JwtInvalid).

Definition demo_routes (c : Claims) (req : HttpReq) (s : Store) : Answer * Store :=
  (Reply (mkResp 200 (JOk "ok")), s).

Definition demo_docs (req : HttpReq) : HttpResp := mkResp 200 (JPage "Swagger UI").

Definition alice : RegisterUserInput :=
  mkRegisterUserInput "Alice" "Alice@Example.com" "secret1" "".

Definition alice_doc : UserDoc :=
  mkUserDoc "id0" "Alice" "alice@example.com" "$2a$10$secret1" "user".

Definition alice_store : Store := [alice_doc].

End Server.

(* ========================================================================= *)
(** * Properties *)

(** ** Client facts *)

Lemma count_verify_app l1 l2 :
  count_verify (l1 ++ l2)%list = (count_verify l1 + count_verify l2)%nat.
Proof. induction l1 as [|[] l1 IH]; simpl; auto. Qed.

Lemma count_sends_to_app u l1 l2 :
  count_sends_to u (l1 ++ l2)%list = (count_sends_to u l1 + count_sends_to u l2)%nat.
Proof. induction l1 as [|[] l1 IH]; simpl; auto; rewrite IH; lia. Qed.

Lemma count_sends_app l1 l2 :
  count_sends (l1 ++ l2)%list = (count_sends l1 + count_sends l2)%nat.
Proof. induction l1 as [|[] l1 IH]; simpl; auto. Qed.

Lemma ext_nil (t : list Effect) : t = ([] ++ t)%list.
Proof. reflexivity. Qed.

Lemma ext_step (x : Effect) l new t : l = (new ++ t)%list -> x :: l = ((x :: new) ++ t)%list.
Proof. intros ->. reflexivity. Qed.

(** Solves [l = ?new ++ t] when [l] is [t] with effects consed on it. *)
Ltac solve_ext := repeat apply ext_step; apply ext_nil.

Lemma url_attach c req : url (attach c req) = url req.
Proof.
  unfold attach, with_credentials, with_bearer.
  destruct (current c) as [u|]; [destruct (truthy (token u))|];
    destruct (startsWith (url req) apiUrl); reflexivity.
Qed.

Lemma stop_current c : current (stopRefreshTokenTimer c) = current c.
Proof. unfold stopRefreshTokenTimer. destruct (refreshTokenTimeout c); reflexivity. Qed.

Lemma stop_pending c : pendingLogout (stopRefreshTokenTimer c) = pendingLogout c.
Proof. unfold stopRefreshTokenTimer. destruct (refreshTokenTimeout c); reflexivity. Qed.

Lemma stop_settling c : settling (stopRefreshTokenTimer c) = settling c.
Proof. unfold stopRefreshTokenTimer. destruct (refreshTokenTimeout c); reflexivity. Qed.

Lemma stop_removes c h t :
  refreshTokenTimeout c = Some h -> ~ In (h, t) (timers (stopRefreshTokenTimer c)).
Proof.
  intros Hh. unfold stopRefreshTokenTimer. rewrite Hh. cbn.
  intros Hin. apply filter_In in Hin as [_ Hb]. cbn in Hb.
  rewrite Pos.eqb_refl in Hb. discriminate.
Qed.

(** [logout] in one step: one [ELogout], one POST to [/auth/logout]
    carrying the session's bearer token, the timer stopped and the call
    queued. *)
Lemma logout_eq server nav w :
  logout server nav w =
    (Ok tt,
     mkWorld
       (set_pendingLogout
          (pendingLogout (client w) ++
             [mkLogoutCall nav (attach (client w) logoutRequest)
                (server (calls w) (attach (client w) logoutRequest))])
          (stopRefreshTokenTimer (client w)))
       (now w) (S (calls w))
       (ESend (attach (client w) logoutRequest) :: ELogout nav :: trace w)).
Proof.
  cbv [logout bind tell modify_client get_client send]. cbn [client calls trace now].
  unfold attach at 1 2 3. rewrite stop_current, stop_pending. reflexivity.
Qed.

Lemma url_logout c : url (attach c logoutRequest) = logoutURL.
Proof. apply url_attach. Qed.

Lemma refresh_ne_logout : refreshURL <> logoutURL.
Proof. vm_compute. discriminate. Qed.

(** *** Computations that keep a relation on the client state *)

Section Keeps.

Variable R : Client -> Client -> Prop.
Hypothesis R_refl : forall c, R c c.
Hypothesis R_trans : forall a b c, R a b -> R b c -> R a c.

Lemma keeps_ret {A} (a : A) : keeps R (ret a).
Proof. intros w. apply R_refl. Qed.

Lemma keeps_throw {A} e : keeps R (@throw A e).
Proof. intros w. apply R_refl. Qed.

Lemma keeps_tell e : keeps R (tell e).
Proof. intros w. apply R_refl. Qed.

Lemma keeps_get_client : keeps R get_client.
Proof. intros w. apply R_refl. Qed.

Lemma keeps_get_world : keeps R get_world.
Proof. intros w. apply R_refl. Qed.

Lemma keeps_modify f : (forall c, R c (f c)) -> keeps R (modify_client f).
Proof. intros H w. apply H. Qed.

Lemma keeps_bind {A B} (m : M A) (k : A -> M B) :
  keeps R m -> (forall a, keeps R (k a)) -> keeps R (bind m k).
Proof.
  intros Hm Hk w. unfold bind. specialize (Hm w).
  destruct (m w) as [[a|e] w']; cbn in *; [|exact Hm].
  eapply R_trans; [exact Hm|apply Hk].
Qed.

Lemma keeps_catchError {A} (m : M A) h :
  keeps R m -> (forall e, keeps R (h e)) -> keeps R (catchError m h).
Proof.
  intros Hm Hh w. unfold catchError. specialize (Hm w).
  destruct (m w) as [[a|e] w']; cbn in *; [exact Hm|].
  eapply R_trans; [exact Hm|apply Hh].
Qed.

End Keeps.

Create HintDb keeps_db.

(** Splits a computation into its combinators; [keeps_db] closes the leaves. *)
Ltac keeps_tac :=
  repeat (cbv beta zeta;
    match goal with
    | |- keeps _ (bind _ _) => apply keeps_bind; [assumption .. | |intros ?]
    | |- keeps _ (catchError _ _) => apply keeps_catchError; [assumption .. | |intros ?]
    | |- keeps _ (ret _) => apply keeps_ret; assumption
    | |- keeps _ (throw _) => apply keeps_throw; assumption
    | |- keeps _ (tell _) => apply keeps_tell; assumption
    | |- keeps _ get_client => apply keeps_get_client; assumption
    | |- keeps _ get_world => apply keeps_get_world; assumption
    | |- keeps _ (modify_client _) => apply keeps_modify; intros ?
    | |- keeps _ (match ?x with _ => _ end) => destruct x
    | |- keeps _ (if ?b then _ else _) => destruct b
    | |- keeps _ _ => solve [eauto with keeps_db]
    end).

Section KeepsChain.

Variable R : Client -> Client -> Prop.
Hypothesis R_refl : forall c, R c c.
Hypothesis R_trans : forall a b c, R a b -> R b c -> R a c.
Variable server : nat -> Request -> Response.
Variable parseJwt : string -> option JwtPayload.
Hypothesis R_stop : forall c, R c (stopRefreshTokenTimer c).
Hypothesis R_current : forall c u, R c (set_current u c).
Hypothesis R_settling : forall c u, R c (set_settling (settling c ++ [u]) c).
Hypothesis R_pending : forall c x, R c (set_pendingLogout (pendingLogout c ++ [x]) c).

Lemma keeps_send req : keeps R (send server req).
Proof. intros w. apply R_refl. Qed.

Lemma keeps_backend req : keeps R (backend server req).
Proof. unfold backend. keeps_tac. apply keeps_send. Qed.

Lemma keeps_logout nav : keeps R (logout server nav).
Proof. unfold logout. keeps_tac; auto. apply keeps_send. Qed.

Lemma keeps_finish {A} m : keeps R (@finish A m).
Proof. unfold finish. keeps_tac. Qed.

Lemma keeps_handleAuthentication r : keeps R (handleAuthentication parseJwt r).
Proof.
  unfold handleAuthentication. keeps_tac.
  eapply R_trans; [apply (R_current _ None)|].
  apply (R_settling (set_current None _) r).
Qed.

Local Hint Resolve keeps_send keeps_backend keeps_logout keeps_finish
  keeps_handleAuthentication : keeps_db.

Lemma keeps_verifyToken post :
  (forall req, keeps R (post req)) -> keeps R (verifyToken parseJwt post).
Proof. intros Hp. unfold verifyToken. keeps_tac. Qed.

Local Hint Resolve keeps_verifyToken : keeps_db.

Lemma keeps_on_exn refresh req next ex :
  keeps R refresh -> (forall r, keeps R (next r)) -> keeps R (on_exn server refresh req next ex).
Proof.
  intros Hr Hn. unfold on_exn, on_error, handleUnauthorizedError. keeps_tac.
Qed.

Local Hint Resolve keeps_on_exn : keeps_db.

Lemma keeps_http f req : keeps R (http server parseJwt f req).
Proof.
  revert req. induction f as [|f IH]; intros req; cbn [http].
  - keeps_tac.
  - unfold auth_intercept, error_intercept. keeps_tac.
Qed.

Lemma keeps_pipeline req : keeps R (pipeline server parseJwt req).
Proof. apply keeps_http. Qed.

Lemma keeps_verify_pipeline : keeps R (verifyToken parseJwt (pipeline server parseJwt)).
Proof. apply keeps_verifyToken. intros req. apply keeps_http. Qed.

Hypothesis R_setpending : forall c p, R c (set_pendingLogout p c).

Lemma keeps_logout_complete : keeps R (logout_complete server parseJwt).
Proof.
  unfold logout_complete. keeps_tac; auto.
  apply keeps_on_exn; [apply keeps_verifyToken; intros; apply keeps_http|apply keeps_backend].
Qed.

End KeepsChain.

(** ** Timer invariant *)

Lemma stop_one_timer c :
  one_timer c ->
  timers (stopRefreshTokenTimer c) = [] /\ refreshTokenTimeout (stopRefreshTokenTimer c) = None.
Proof.
  intros [Hlen Hh]. unfold stopRefreshTokenTimer.
  destruct (refreshTokenTimeout c) as [h|] eqn:Ht.
  - cbn. split; [|reflexivity].
    destruct (timers c) as [|[h1 t1] rest] eqn:Hts; [reflexivity|].
    destruct rest as [|x rest]; [|cbn in Hlen; lia].
    cbn. specialize (Hh h1 t1 ltac:(left; reflexivity)).
    injection Hh as ->. rewrite Pos.eqb_refl. reflexivity.
  - split; [|exact Ht].
    destruct (timers c) as [|[h1 t1] rest] eqn:Hts; [reflexivity|].
    specialize (Hh h1 t1 ltac:(left; reflexivity)). discriminate.
Qed.

Lemma one_timer_stop c : one_timer c -> one_timer (stopRefreshTokenTimer c).
Proof.
  intros H. destruct (stop_one_timer c H) as [Ht _]. split; rewrite Ht; cbn; [lia|tauto].
Qed.

Lemma one_timer_same c c' :
  timers c' = timers c -> refreshTokenTimeout c' = refreshTokenTimeout c ->
  one_timer c -> one_timer c'.
Proof. intros H1 H2 [Hl Hh]. split; rewrite H1; [exact Hl|]. rewrite H2. exact Hh. Qed.

(** The interceptor chain, [verifyToken], [logout] and the completion of a
    logout POST keep the timer invariant. *)
Lemma one_timer_chain server parseJwt :
  let R := fun c c' => one_timer c -> one_timer c' in
  (forall req, keeps R (pipeline server parseJwt req)) /\
  keeps R (verifyToken parseJwt (pipeline server parseJwt)) /\
  keeps R (logout_complete server parseJwt) /\
  (forall nav, keeps R (logout server nav)).
Proof.
  intros R.
  assert (Hrefl : forall c, R c c) by (intros c H; exact H).
  assert (Htrans : forall a b c, R a b -> R b c -> R a c) by (intros a b c H1 H2 H; auto).
  assert (Hstop : forall c, R c (stopRefreshTokenTimer c)) by (intros c; unfold R; apply one_timer_stop).
  assert (Hcur : forall c u, R c (set_current u c))
    by (intros c u; unfold R; apply one_timer_same; reflexivity).
  assert (Hset : forall c u, R c (set_settling (settling c ++ [u]) c))
    by (intros c u; unfold R; apply one_timer_same; reflexivity).
  assert (Hpend : forall c p, R c (set_pendingLogout p c))
    by (intros c p; unfold R; apply one_timer_same; reflexivity).
  split; [|split; [|split]].
  - intros req. apply keeps_pipeline; auto.
  - apply keeps_verify_pipeline; auto.
  - apply keeps_logout_complete; auto.
  - intros nav. apply keeps_logout; auto.
Qed.

Section TimerFacts.

Variable parseJwt : string -> option JwtPayload.

Lemma one_timer_start now_ms c :
  one_timer c -> one_timer (fst (startRefreshTokenTimer parseJwt now_ms c)).
Proof.
  intros H. pose proof (one_timer_stop c H) as Hs.
  destruct (stop_one_timer c H) as [Ht Hn].
  unfold startRefreshTokenTimer.
  destruct (current (stopRefreshTokenTimer c)) as [u|]; [|exact Hs].
  destruct (negb (truthy (token u))); [exact Hs|].
  destruct (jwt_exp parseJwt (token u)) as [e|]; [|exact Hs].
  destruct (max_time <? Z.abs (e * 1000)); [exact Hs|].
  destruct (0 <? e * 1000 - now_ms - 60 * 1000); [|exact Hs].
  cbn [fst]. split; cbn [timers set_timer refreshTokenTimeout]; rewrite Ht; cbn; [lia|].
  intros h' t' [E|[]]. injection E as -> _. reflexivity.
Qed.

Lemma one_timer_step c c' : client_step parseJwt c c' -> one_timer c -> one_timer c'.
Proof.
  intros Hs H.
  destruct Hs as [now_ms c|c|now_ms c|r w|server nav w|server w|server req w|server w|u c].
  - apply one_timer_start, H.
  - unfold fire_refresh_timer. destruct (timers c) as [|x rest] eqn:Ht; [exact H|].
    destruct H as [Hl _]. rewrite Ht in Hl.
    destruct rest; [|cbn in Hl; lia]. split; cbn; [lia|tauto].
  - unfold settle_fire. destruct (settling c) as [|u rest].
    + exact H.
    + apply one_timer_start. revert H. apply one_timer_same; reflexivity.
  - unfold handleAuthentication, ret, modify_client.
    destruct (negb (truthy (token r)) || negb (truthy (id r)))%bool; [exact H|].
    destruct (jwt_exp parseJwt (token r)); [|exact H].
    revert H. apply one_timer_same; reflexivity.
  - exact (proj2 (proj2 (proj2 (one_timer_chain server parseJwt))) nav w H).
  - exact (proj1 (proj2 (proj2 (one_timer_chain server parseJwt))) w H).
  - exact (proj1 (one_timer_chain server parseJwt) req w H).
  - exact (proj1 (proj2 (one_timer_chain server parseJwt)) w H).
  - revert H. apply one_timer_same; reflexivity.
Qed.

Lemma one_timer_reach c c' :
  clos_refl_trans _ (client_step parseJwt) c c' -> one_timer c -> one_timer c'.
Proof.
  induction 1 as [x y Hs|x|x y z _ IH1 _ IH2]; auto.
  apply one_timer_step, Hs.
Qed.

End TimerFacts.

(** ** The completion of a logout POST *)

Lemma bind_get_client {A} (k : Client -> M A) w : bind get_client k w = k (client w) w.
Proof. reflexivity. Qed.

Lemma bind_modify {A} f (k : unit -> M A) w :
  bind (modify_client f) k w = k tt (mkWorld (f (client w)) (now w) (calls w) (trace w)).
Proof. reflexivity. Qed.

(** Whatever the response did in [ErrorInterceptor], one of the two
    callbacks runs last. *)
Lemma callback_clears {A} (m : M A) (b : bool) w :
  current (client (snd
    (catchError
       (_ <- m ;; (_ <- modify_client (set_current None) ;;
                   if b then tell (ENavigate "/login") else ret tt))
       (fun _ => _ <- modify_client (set_current None) ;;
                 if b then tell (ENavigate "/login") else ret tt) w))) = None.
Proof.
  unfold catchError, bind. destruct (m w) as [[a|e] w']; destruct b; reflexivity.
Qed.

Lemma logout_complete_clears server parseJwt w :
  pendingLogout (client w) <> [] ->
  current (client (snd (logout_complete server parseJwt w))) = None.
Proof.
  intros H. unfold logout_complete. rewrite bind_get_client.
  destruct (pendingLogout (client w)) as [|lc rest]; [congruence|].
  rewrite bind_modify. apply callback_clears.
Qed.

(** The chain never drops a logout POST in flight. *)
Lemma pending_chain server parseJwt :
  let R := fun c c' => (length (pendingLogout c) <= length (pendingLogout c'))%nat in
  keeps R (verifyToken parseJwt (http server parseJwt 1)) /\
  (forall req ex,
     keeps R (on_exn server (verifyToken parseJwt (http server parseJwt 1)) req
                (backend server) ex)).
Proof.
  intros R.
  assert (Hrefl : forall c, R c c) by (intros c; unfold R; lia).
  assert (Htrans : forall a b c, R a b -> R b c -> R a c) by (intros a b c; unfold R; lia).
  assert (Hstop : forall c, R c (stopRefreshTokenTimer c))
    by (intros c; unfold R; rewrite stop_pending; lia).
  assert (Hcur : forall c u, R c (set_current u c)) by (intros c u; unfold R; cbn; lia).
  assert (Hset : forall c u, R c (set_settling (settling c ++ [u]) c))
    by (intros c u; unfold R; cbn; lia).
  assert (Hpend : forall c x, R c (set_pendingLogout (pendingLogout c ++ [x]) c))
    by (intros c x; unfold R; cbn; rewrite length_app; lia).
  assert (Hv : keeps R (verifyToken parseJwt (http server parseJwt 1))).
  { apply keeps_verifyToken; auto. intros r. apply keeps_http; auto. }
  split; [exact Hv|].
  intros req ex. apply keeps_on_exn; auto. intros r. apply keeps_backend; auto.
Qed.

Lemma logout_complete_leaves server parseJwt w :
  (2 <= length (pendingLogout (client w)))%nat ->
  pendingLogout (client (snd (logout_complete server parseJwt w))) <> [].
Proof.
  intros H. unfold logout_complete. rewrite bind_get_client.
  destruct (pendingLogout (client w)) as [|lc rest] eqn:Hp; [cbn in H; lia|].
  rewrite bind_modify. cbv zeta.
  set (R := fun c c' => (length (pendingLogout c) <= length (pendingLogout c'))%nat).
  assert (Hrefl : forall c, R c c) by (intros c; unfold R; lia).
  assert (Htrans : forall a b c, R a b -> R b c -> R a c) by (intros a b c; unfold R; lia).
  match goal with |- pendingLogout (client (snd (?K ?w0))) <> [] =>
    assert (HK : keeps R K); [|specialize (HK w0)] end.
  - keeps_tac; try (unfold R; cbn; lia).
    apply (proj2 (pending_chain server parseJwt)).
  - unfold R in HK. cbn [client set_pendingLogout pendingLogout] in HK.
    cbn in H. intros E. rewrite E in HK. cbn in HK. lia.
Qed.

(** ** Traces of the interceptor chain *)

(** The effects consed on [t] to form [l]. *)
Ltac take_prefix l t :=
  match l with
  | t => constr:(@nil Effect)
  | ?x :: ?l' => let p := take_prefix l' t in constr:(x :: p)
  end.

Ltac ex_prefix :=
  match goal with
  | |- exists new, ?l = (new ++ ?t)%list /\ _ => let p := take_prefix l t in exists p
  end.

Section ClientFacts.

Variable server : nat -> Request -> Response.
Variable parseJwt : string -> option JwtPayload.

Lemma http_S f req :
  http server parseJwt (S f) req =
  auth_intercept req
    (fun r => error_intercept server (verifyToken parseJwt (http server parseJwt f)) r
                (backend server)).
Proof. reflexivity. Qed.

(** A request of the auth flow (its URL contains [/login] or [/refresh]):
    whatever the answer, no refresh; the only request sent after it is a
    logout POST; and what a 401 turns into. *)
Lemma auth_flow fuel w req :
  (includes (url req) "/login" || includes (url req) "/refresh")%bool = true ->
  let '(r, w') := http server parseJwt (S fuel) req w in
  exists new, trace w' = (new ++ ESend (attach (client w) req) :: trace w)%list /\
    count_verify new = O /\ (count_sends new <= 1)%nat /\
    (forall r', In (ESend r') new -> url r' = logoutURL) /\
    match server (calls w) (attach (client w) req) with
    | ROk b => r = Ok b /\ new = []
    | RErr e =>
        (exists ex, r = Throw ex) /\
        (client_side e = None -> status e = 401 ->
           if includes (url req) "/login"
           then new = [ESnack "Invalid email or password"] /\
                r = Throw (ExnMessage "Invalid email or password")
           else if includes (url req) "/tasks"
           then new = [] /\ r = Throw (ExnHttp e)
           else exists c', new = [ESnack session_expired; ENavigate "/login";
                                   ESend (attach c' logoutRequest); ELogout true] /\
                r = Throw (ExnMessage session_expired))
    end.
Proof.
  intros Hauth. rewrite http_S.
  cbv [auth_intercept error_intercept catchError bind get_client backend send ret throw].
  cbn [client calls trace now].
  destruct (server (calls w) (attach (client w) req)) as [b|e] eqn:Hs.
  { exists []. split; [reflexivity|]. split; [reflexivity|]. split; [cbn; lia|].
    split; [intros r' []|]. auto. }
  cbv [on_exn on_error].
  destruct (client_side e) as [m|] eqn:Hc.
  { cbv [finish tell bind throw]. cbn [trace].
    exists [ESnack (initial_message e)]. split; [reflexivity|]. split; [reflexivity|].
    split; [cbn; lia|]. split; [intros r' [H|[]]; discriminate|].
    split; [eauto|]. intros H; discriminate. }
  destruct (status e =? 401) eqn:H401.
  2:{ assert (Hn : status e <> 401) by (apply Z.eqb_neq, H401).
      destruct (status e =? 403);
        [|destruct (status e =? 404); [|destruct (status e =? 500)]];
        cbv [finish tell bind throw]; cbn [trace];
        (ex_prefix; split; [reflexivity|]; split; [reflexivity|];
         split; [cbn; lia|]; split; [intros r' H; cbn in H; intuition discriminate|];
         split; [eauto|]; intros _ H; contradiction). }
  apply Z.eqb_eq in H401.
  cbv [bind get_client]. cbn [client]. rewrite url_attach.
  destruct (includes (url req) "/login") eqn:Hl.
  { cbv [finish tell bind throw]. cbn [trace].
    exists [ESnack "Invalid email or password"]. split; [reflexivity|].
    split; [reflexivity|]. split; [cbn; lia|].
    split; [intros r' [H|[]]; discriminate|]. split; [eauto|]. auto. }
  cbn in Hauth. rewrite Hauth.
  destruct (includes (url req) "/tasks") eqn:Ht.
  { exists []. split; [reflexivity|]. split; [reflexivity|]. split; [cbn; lia|].
    split; [intros r' []|]. split; [eauto|]. auto. }
  rewrite andb_false_r. cbn [negb andb].
  match goal with |- context [logout server true ?w0] =>
    rewrite (logout_eq server true w0) end.
  cbv [finish tell bind throw]. cbn [trace client].
  exists [ESnack session_expired; ENavigate "/login";
          ESend (attach (client w) logoutRequest); ELogout true].
  split; [reflexivity|]. split; [reflexivity|]. split; [cbn; lia|].
  split.
  { intros r' H. cbn in H. repeat destruct H as [H|H]; try discriminate; try contradiction.
    injection H as <-. apply url_logout. }
  split; [eauto|]. intros _ _. eauto.
Qed.

Lemma handleAuthentication_shape r w :
  fst (handleAuthentication parseJwt r w) = Ok tt /\
  trace (snd (handleAuthentication parseJwt r w)) = trace w /\
  calls (snd (handleAuthentication parseJwt r w)) = calls w.
Proof.
  unfold handleAuthentication, ret, modify_client.
  destruct (negb (truthy (token r)) || negb (truthy (id r)))%bool; [auto|].
  destruct (jwt_exp parseJwt (token r)); auto.
Qed.

Lemma refresh_url_is_refresh : includes refreshURL "/refresh" = true.
Proof. vm_compute. reflexivity. Qed.

Lemma refresh_url_not_login : includes refreshURL "/login" = false.
Proof. vm_compute. reflexivity. Qed.

Lemma refresh_url_not_tasks : includes refreshURL "/tasks" = false.
Proof. vm_compute. reflexivity. Qed.

(** The reissue POST of [verifyToken] through the chain: it is sent first,
    nothing refreshes, and only a logout POST may follow it. *)
Lemma reissue_run fuel t w :
  let '(r, w') := http server parseJwt (S fuel) (refreshRequest t) w in
  exists new, trace w' = (new ++ ESend (attach (client w) (refreshRequest t)) :: trace w)%list /\
    count_verify new = O /\ (count_sends new <= 1)%nat /\
    (forall r', In (ESend r') new -> url r' = logoutURL) /\
    (forall b, r = Ok b -> new = []) /\
    (forall e, server (calls w) (attach (client w) (refreshRequest t)) = RErr e ->
               exists ex, r = Throw ex).
Proof.
  pose proof (auth_flow fuel w (refreshRequest t)) as Hf.
  specialize (Hf ltac:(vm_compute; reflexivity)).
  destruct (http server parseJwt (S fuel) (refreshRequest t) w) as [r w'].
  destruct Hf as [new [Ht [Hc [Hs [Hu Hm]]]]].
  exists new. split; [exact Ht|]. split; [exact Hc|]. split; [exact Hs|]. split; [exact Hu|].
  destruct (server (calls w) (attach (client w) (refreshRequest t))) as [b|e].
  - destruct Hm as [-> ->]. split; [auto|]. intros e0 E; discriminate.
  - destruct Hm as [[ex ->] _]. split; [intros b E; discriminate|]. intros e0 _. eauto.
Qed.

Lemma url_refreshRequest c t : url (attach c (refreshRequest t)) = refreshURL.
Proof. apply url_attach. Qed.

Lemma count_sends_to_other u U l :
  (forall r', In (ESend r') l -> url r' = U) -> U <> u -> count_sends_to u l = O.
Proof.
  induction l as [|[] l IH]; simpl; intros Hl Hne; auto.
  rewrite IH by auto. rewrite (Hl r (or_introl eq_refl)).
  destruct (String.eqb_spec U u); [contradiction|reflexivity].
Qed.

(** The effects of a reissue: what follows the POST, the POST, the
    [EVerifyToken] that started it. *)
Lemma reissue_trace_facts new c t :
  count_verify new = O -> (count_sends new <= 1)%nat ->
  (forall r', In (ESend r') new -> url r' = logoutURL) ->
  let full := (new ++ [ESend (attach c (refreshRequest t)); EVerifyToken])%list in
  count_verify full = 1%nat /\ count_sends_to refreshURL full = 1%nat /\
  (count_sends full <= 2)%nat /\
  (forall r', In (ESend r') full -> url r' = refreshURL \/ url r' = logoutURL) /\
  (new = [] -> forall r', In (ESend r') full -> url r' = refreshURL).
Proof.
  intros Hc Hs Hu full. subst full.
  split; [rewrite count_verify_app, Hc; reflexivity|].
  split.
  { rewrite count_sends_to_app, (count_sends_to_other _ logoutURL new Hu).
    - cbn [count_sends_to]. rewrite url_refreshRequest, String.eqb_refl. reflexivity.
    - intros E. apply refresh_ne_logout. symmetry. exact E. }
  split; [rewrite count_sends_app; cbn; lia|].
  split.
  { intros r' Hin. apply in_app_or in Hin as [Hin|[Hin|[Hin|[]]]].
    - right. apply Hu, Hin.
    - injection Hin as <-. left. apply url_refreshRequest.
    - discriminate. }
  intros -> r' [Hin|[Hin|[]]]; [|discriminate].
  injection Hin as <-. apply url_refreshRequest.
Qed.

Ltac reissue_tac fuel w1 t :=
  pose proof (reissue_run fuel t w1) as Hf;
  destruct (http server parseJwt (S fuel) (refreshRequest t) w1) as [r w2];
  destruct Hf as [new [Ht [Hc [Hs [Hu [Hok He]]]]]];
  pose proof (reissue_trace_facts new (client w1) t Hc Hs Hu) as Hfacts;
  cbv zeta in Hfacts;
  destruct r as [b|ex];
  [ specialize (Hok b eq_refl);
    destruct (data_user b) as [ud|];
    [ match goal with
      | |- context [handleAuthentication parseJwt ?ar w2] =>
          pose proof (handleAuthentication_shape ar w2) as [Ha1 [Ha2 _]];
          destruct (handleAuthentication parseJwt ar w2) as [r3 w3];
          simpl in Ha1, Ha2; subst r3; cbn [snd]; rewrite Ha2
      end | ] | ];
  exists (new ++ [ESend (attach (client w1) (refreshRequest t)); EVerifyToken])%list;
  (split; [rewrite Ht; cbn; rewrite <- app_assoc; reflexivity|]);
  destruct Hfacts as [F1 [F2 [F3 [F4 F5]]]].

(** A refresh: [verifyToken] is invoked once; it sends at most the reissue
    POST and a logout POST, and only the reissue POST when it succeeds. *)
Lemma verifyToken_shape fuel w :
  let '(vr, w') := verifyToken parseJwt (http server parseJwt (S fuel)) w in
  exists new, trace w' = (new ++ trace w)%list /\ count_verify new = 1%nat /\
    (count_sends_to refreshURL new <= 1)%nat /\ (count_sends new <= 2)%nat /\
    (forall r', In (ESend r') new -> url r' = refreshURL \/ url r' = logoutURL) /\
    (forall a, vr = Ok a -> forall r', In (ESend r') new -> url r' = refreshURL).
Proof.
  cbv [verifyToken bind tell get_world ret throw catchError].
  cbn [client current now calls trace].
  set (w1 := {| client := client w; now := now w; calls := calls w;
                trace := EVerifyToken :: trace w |}).
  assert (Hnone : exists new, EVerifyToken :: trace w = (new ++ trace w)%list /\
            count_verify new = 1%nat /\ (count_sends_to refreshURL new <= 1)%nat /\
            (count_sends new <= 2)%nat /\
            (forall r', In (ESend r') new -> url r' = refreshURL \/ url r' = logoutURL) /\
            (forall a, @Throw User (ExnMessage "x") = Ok a ->
               forall r', In (ESend r') new -> url r' = refreshURL)).
  { exists [EVerifyToken]. split; [reflexivity|]. split; [reflexivity|].
    split; [cbn; lia|]. split; [cbn; lia|].
    split; [intros r' [H|[]]; discriminate|]. intros a E; discriminate. }
  destruct (current (client w)) as [u|].
  2:{ destruct Hnone as [n [H1 [H2 [H3 [H4 [H5 _]]]]]].
      exists n. repeat split; auto. intros a E; discriminate. }
  destruct (negb (truthy (token u))).
  { destruct Hnone as [n [H1 [H2 [H3 [H4 [H5 _]]]]]].
    exists n. repeat split; auto. intros a E; discriminate. }
  destruct (jwt_exp parseJwt (token u)) as [e|].
  - destruct (e <? now w / 1000).
    { destruct Hnone as [n [H1 [H2 [H3 [H4 [H5 _]]]]]].
      exists n. repeat split; auto. intros a E; discriminate. }
    reissue_tac fuel w1 (token u);
      (split; [exact F1|]; split; [rewrite F2; lia|]; split; [exact F3|];
       split; [exact F4|]; intros a E; try discriminate; apply F5, Hok).
  - reissue_tac fuel w1 (token u);
      (split; [exact F1|]; split; [rewrite F2; lia|]; split; [exact F3|];
       split; [exact F4|]; intros a E; try discriminate; apply F5, Hok).
Qed.

End ClientFacts.

Lemma pending_app_ne (p : list LogoutCall) x : (p ++ [x])%list <> [].
Proof. destruct p; discriminate. Qed.

Lemma setTimeout_delay_small t : 0 < t < 2 ^ 31 -> setTimeout_delay t = t.
Proof.
  intros H. unfold setTimeout_delay. rewrite Z.mod_small by lia.
  destruct (Z.leb_spec (2 ^ 31) t); [lia|]. destruct (Z.ltb_spec t 0); lia.
Qed.

Lemma setTimeout_delay_wrap t : 2 ^ 31 <= t < 2 ^ 32 -> setTimeout_delay t = 0.
Proof.
  intros H. unfold setTimeout_delay. rewrite Z.mod_small by lia.
  destruct (Z.leb_spec (2 ^ 31) t); [|lia]. destruct (Z.ltb_spec (t - 2 ^ 32) 0); lia.
Qed.

Ltac close_reissue :=
  match goal with
  | Htr : trace ?w2 = (?new ++ ESend ?q :: _)%list,
    Her : forall e, _ = RErr e -> exists ex, _ |- _ =>
      exists (new ++ [ESend q; EVerifyToken])%list;
      split; [rewrite Htr; cbn; rewrite <- app_assoc; reflexivity|];
      split; [assumption|]; split; [assumption|]; split; [assumption|];
      split; [assumption|];
      split; [intros ? E; try discriminate;
              match goal with Hok : new = [] |- _ => rewrite Hok; reflexivity end|];
      intros e0 He0; destruct (Her e0 He0) as [ex0 Hex0]; try discriminate; eauto
  end.

Section Scenarios.

Variable server : nat -> Request -> Response.
Variable parseJwt : string -> option JwtPayload.

(** [verifyToken] with a session whose token is not locally expired. *)
Lemma verifyToken_reissue fuel w u :
  current (client w) = Some u -> truthy (token u) = true ->
  (forall e, jwt_exp parseJwt (token u) = Some e -> now w / 1000 <= e) ->
  let '(r, w') := verifyToken parseJwt (http server parseJwt (S fuel)) w in
  exists new, trace w' = (new ++ trace w)%list /\ count_verify new = 1%nat /\
    count_sends_to refreshURL new = 1%nat /\ (count_sends new <= 2)%nat /\
    (forall r', In (ESend r') new -> url r' = refreshURL \/ url r' = logoutURL) /\
    (forall a, r = Ok a -> count_sends new = 1%nat) /\
    (forall e, server (calls w) (attach (client w) (refreshRequest (token u))) = RErr e ->
               exists ex, r = Throw ex).
Proof.
  intros Hu Ht Hnot.
  cbv [verifyToken bind tell get_world ret throw catchError].
  cbn [client now calls trace]. rewrite Hu, Ht. cbn [negb].
  set (w1 := {| client := client w; now := now w; calls := calls w;
                trace := EVerifyToken :: trace w |}).
  destruct (jwt_exp parseJwt (token u)) as [e|] eqn:He.
  - specialize (Hnot e eq_refl). apply Z.ltb_ge in Hnot. rewrite Hnot.
    pose proof (reissue_run server parseJwt fuel (token u) w1) as Hf.
    destruct (http server parseJwt (S fuel) (refreshRequest (token u)) w1) as [r w2].
    destruct Hf as [new [Htr [Hc [Hs [Hu' [Hok Her]]]]]].
    pose proof (reissue_trace_facts new (client w1) (token u) Hc Hs Hu') as Hfacts.
    cbv zeta in Hfacts. destruct Hfacts as [F1 [F2 [F3 [F4 F5]]]].
    destruct r as [b|ex].
    + specialize (Hok b eq_refl).
      destruct (data_user b) as [ud|].
      * match goal with
        | |- context [handleAuthentication parseJwt ?ar w2] =>
            pose proof (handleAuthentication_shape parseJwt ar w2) as [Ha1 [Ha2 _]];
            destruct (handleAuthentication parseJwt ar w2) as [r3 w3];
            simpl in Ha1, Ha2; subst r3; cbn [snd]; rewrite Ha2
        end.
        close_reissue.
      * close_reissue.
    + close_reissue.
  - pose proof (reissue_run server parseJwt fuel (token u) w1) as Hf.
    destruct (http server parseJwt (S fuel) (refreshRequest (token u)) w1) as [r w2].
    destruct Hf as [new [Htr [Hc [Hs [Hu' [Hok Her]]]]]].
    pose proof (reissue_trace_facts new (client w1) (token u) Hc Hs Hu') as Hfacts.
    cbv zeta in Hfacts. destruct Hfacts as [F1 [F2 [F3 [F4 F5]]]].
    destruct r as [b|ex].
    + specialize (Hok b eq_refl).
      destruct (data_user b) as [ud|].
      * match goal with
        | |- context [handleAuthentication parseJwt ?ar w2] =>
            pose proof (handleAuthentication_shape parseJwt ar w2) as [Ha1 [Ha2 _]];
            destruct (handleAuthentication parseJwt ar w2) as [r3 w3];
            simpl in Ha1, Ha2; subst r3; cbn [snd]; rewrite Ha2
        end.
        close_reissue.
      * close_reissue.
    + close_reissue.
Qed.

End Scenarios.

(** C1 (amended).  A request to the API whose URL contains none of
    [/login], [/refresh], [/tasks], answered with a server-side 401 while a
    session exists.  The error interceptor invokes the refresh operation
    ([verifyToken]) exactly once; what the refresh sends goes to
    [/auth/refresh] or [/auth/logout].  If the refresh succeeds, the request
    is sent again exactly once; if that retry fails too, [logout(true)] runs
    (its POST leaves at once), the user is sent to [/login] and "Session
    expired" is raised.  If the refresh fails, the same happens without a
    retry.  After a logout the session is [null] once the logout POST
    completes, whatever its outcome. *)
Theorem error_interceptor_401_refresh_then_retry_once server parseJwt w req u e :
  current (client w) = Some u ->
  startsWith (url req) apiUrl = true ->
  includes (url req) "/login" = false ->
  includes (url req) "/tasks" = false ->
  includes (url req) "/refresh" = false ->
  server (calls w) (attach (client w) req) = RErr e ->
  status e = 401 -> client_side e = None ->
  let w1 := mkWorld (client w) (now w) (S (calls w))
              (ESend (attach (client w) req) :: trace w) in
  let '(vr, w2) := verifyToken parseJwt (http server parseJwt 1) w1 in
  let '(r, w') := pipeline server parseJwt req w in
  exists newv, trace w2 = (newv ++ trace w1)%list /\ count_verify newv = 1%nat /\
  (forall r', In (ESend r') newv -> url r' = refreshURL \/ url r' = logoutURL) /\
  match vr with
  | Ok _ =>
      (forall r', In (ESend r') newv -> url r' = refreshURL) /\
      exists req', url req' = url req /\
      ((trace w' = ESend req' :: trace w2 /\ exists b, r = Ok b) \/
       ((exists c3, trace w' = ([ESnack session_expired; ENavigate "/login";
                                 ESend (attach c3 logoutRequest); ELogout true; ESend req']
                                ++ trace w2)%list) /\
        r = Throw (ExnMessage session_expired) /\
        current (client (snd (logout_complete server parseJwt w'))) = None))
  | Throw _ =>
      (exists c3, trace w' = ([ESnack session_expired; ENavigate "/login";
                               ESend (attach c3 logoutRequest); ELogout true] ++ trace w2)%list) /\
      r = Throw (ExnMessage session_expired) /\
      current (client (snd (logout_complete server parseJwt w'))) = None
  end.
Proof.
  intros Hu Hapi Hl Ht Hr Hs H401 Hcs w1.
  unfold pipeline. rewrite http_S.
  cbv [auth_intercept error_intercept catchError bind get_client backend send ret throw].
  cbn [client calls trace now]. rewrite Hs.
  cbv [on_exn on_error]. rewrite Hcs, H401. cbn [Z.eqb Pos.eqb].
  cbv [bind get_client]. cbn [client]. rewrite url_attach, Hl, Ht, Hr, Hapi, Hu.
  cbn [andb negb].
  cbv [handleUnauthorizedError catchError bind get_client].
  fold w1.
  pose proof (verifyToken_shape server parseJwt O w1) as Hv.
  destruct (verifyToken parseJwt (http server parseJwt 1) w1) as [vr w2].
  destruct Hv as [newv [Htv [Hcv [_ [_ [Huv Hok]]]]]].
  destruct vr as [ar|ex].
  - match goal with |- context [server (calls w2) ?q] => set (req' := q) end.
    destruct (server (calls w2) req') as [b|e2] eqn:Hs2;
      exists newv; (split; [exact Htv|]); (split; [exact Hcv|]); (split; [exact Huv|]);
      (split; [apply (Hok ar eq_refl)|]);
    exists req'; split.
    { subst req'. destruct (current (client w2)) as [u0|];
        [destruct (truthy (token u0))|]; apply url_attach. }
    + left. split; [reflexivity|eauto].
    + subst req'. destruct (current (client w2)) as [u0|];
        [destruct (truthy (token u0))|]; apply url_attach.
    + right. cbn [client calls trace now].
      try match goal with |- context [logout server true ?w0] =>
        rewrite (logout_eq server true w0) end.
      cbv [finish tell throw]. cbn [trace client fst snd].
      split; [eexists; reflexivity|]. split; [reflexivity|].
      apply logout_complete_clears. cbn. apply pending_app_ne.
  - exists newv. split; [exact Htv|]. split; [exact Hcv|]. split; [exact Huv|].
    try match goal with |- context [logout server true ?w0] =>
      rewrite (logout_eq server true w0) end.
    cbv [finish tell throw]. cbn [trace client fst snd].
    split; [eexists; reflexivity|]. split; [reflexivity|].
    apply logout_complete_clears. cbn. apply pending_app_ne.
Qed.

Lemma error_interceptor_401_refresh_then_retry_once_witness :
  let w1 := mkWorld (client demo_world) (now demo_world) (S (calls demo_world))
              (ESend (attach (client demo_world) profile_request) :: trace demo_world) in
  let '(vr, w2) := verifyToken demo_parseJwt (http always_401 demo_parseJwt 1) w1 in
  let '(r, w') := pipeline always_401 demo_parseJwt profile_request demo_world in
  exists newv, trace w2 = (newv ++ trace w1)%list /\ count_verify newv = 1%nat /\
  (forall r', In (ESend r') newv -> url r' = refreshURL \/ url r' = logoutURL) /\
  match vr with
  | Ok _ =>
      (forall r', In (ESend r') newv -> url r' = refreshURL) /\
      exists req', url req' = url profile_request /\
      ((trace w' = ESend req' :: trace w2 /\ exists b, r = Ok b) \/
       ((exists c3, trace w' = ([ESnack session_expired; ENavigate "/login";
                                 ESend (attach c3 logoutRequest); ELogout true; ESend req']
                                ++ trace w2)%list) /\
        r = Throw (ExnMessage session_expired) /\
        current (client (snd (logout_complete always_401 demo_parseJwt w'))) = None))
  | Throw _ =>
      (exists c3, trace w' = ([ESnack session_expired; ENavigate "/login";
                               ESend (attach c3 logoutRequest); ELogout true] ++ trace w2)%list) /\
      r = Throw (ExnMessage session_expired) /\
      current (client (snd (logout_complete always_401 demo_parseJwt w'))) = None
  end.
Proof.
  apply (error_interceptor_401_refresh_then_retry_once always_401 demo_parseJwt demo_world
           profile_request demo_user unauthorized); reflexivity.
Defined.

(** C1 counterexample.  A request to [/api/tasks] answered with 401 while a
    session exists triggers no refresh at all: the interceptor rethrows the
    [HttpErrorResponse] unchanged. *)
Lemma tasks_401_no_refresh :
  let '(r, w') := pipeline always_401 demo_parseJwt tasks_request demo_world in
  count_verify (trace w') = O /\ count_sends (trace w') = 1%nat /\
  r = Throw (ExnHttp unauthorized) /\ current (client w') = Some demo_user.
Proof. vm_compute. repeat split. Qed.

(** C2 (amended).  [verifyToken] with a session whose token is truthy: when
    the locally decoded expiry is in the past ([exp < floor(now / 1000)]) it
    fails at once with "Token expired" and sends nothing.  Otherwise it sends
    exactly one reissue POST to [/auth/refresh] and invokes no further
    refresh; when the POST fails it fails in turn, and when the POST gets a
    401 the interceptor also sends the logout POST (at most two requests in
    all, one when the refresh succeeds). *)
Theorem verifyToken_expired_locally_else_one_reissue server parseJwt w u fuel :
  current (client w) = Some u -> truthy (token u) = true ->
  (forall e, jwt_exp parseJwt (token u) = Some e -> e < now w / 1000 ->
     verifyToken parseJwt (http server parseJwt (S fuel)) w =
       (Throw (ExnMessage "Token expired"),
        mkWorld (client w) (now w) (calls w) (EVerifyToken :: trace w))) /\
  ((forall e, jwt_exp parseJwt (token u) = Some e -> now w / 1000 <= e) ->
     let '(r, w') := verifyToken parseJwt (http server parseJwt (S fuel)) w in
     exists new, trace w' = (new ++ trace w)%list /\ count_verify new = 1%nat /\
       count_sends_to refreshURL new = 1%nat /\ (count_sends new <= 2)%nat /\
       (forall r', In (ESend r') new -> url r' = refreshURL \/ url r' = logoutURL) /\
       (forall a, r = Ok a -> count_sends new = 1%nat) /\
       (forall e, server (calls w) (attach (client w) (refreshRequest (token u))) = RErr e ->
                  exists ex, r = Throw ex)).
Proof.
  intros Hu Ht. split.
  - intros e He Hlt.
    cbv [verifyToken bind tell get_world ret throw].
    cbn [client now calls trace]. rewrite Hu, Ht, He. cbn [negb].
    apply Z.ltb_lt in Hlt. rewrite Hlt. reflexivity.
  - intros Hnot. apply (verifyToken_reissue server parseJwt fuel w u Hu Ht Hnot).
Qed.

Lemma verifyToken_expired_locally_else_one_reissue_witness :
  (forall e, jwt_exp demo_parseJwt (token demo_user) = Some e -> e < now demo_world_late / 1000 ->
     verifyToken demo_parseJwt (http always_401 demo_parseJwt 2) demo_world_late =
       (Throw (ExnMessage "Token expired"),
        mkWorld (client demo_world_late) (now demo_world_late) (calls demo_world_late)
          (EVerifyToken :: trace demo_world_late))) /\
  ((forall e, jwt_exp demo_parseJwt (token demo_user) = Some e -> now demo_world_late / 1000 <= e) ->
     let '(r, w') := verifyToken demo_parseJwt (http always_401 demo_parseJwt 2) demo_world_late in
     exists new, trace w' = (new ++ trace demo_world_late)%list /\ count_verify new = 1%nat /\
       count_sends_to refreshURL new = 1%nat /\ (count_sends new <= 2)%nat /\
       (forall r', In (ESend r') new -> url r' = refreshURL \/ url r' = logoutURL) /\
       (forall a, r = Ok a -> count_sends new = 1%nat) /\
       (forall e, always_401 (calls demo_world_late)
                    (attach (client demo_world_late) (refreshRequest (token demo_user))) = RErr e ->
                  exists ex, r = Throw ex)).
Proof.
  apply (verifyToken_expired_locally_else_one_reissue always_401 demo_parseJwt demo_world_late
           demo_user 1); reflexivity.
Defined.

(** C2 counterexample.  The session token decodes to an expiry ten seconds in
    the past: the refresh operation fails with "Token expired" without
    sending any request to the server. *)
Lemma expired_token_no_reissue :
  let '(r, w') := verifyToken demo_parseJwt (pipeline always_401 demo_parseJwt) demo_world_late in
  count_sends (trace w') = O /\ r = Throw (ExnMessage "Token expired").
Proof. vm_compute. split; reflexivity. Qed.

(** C4 (amended).  A request whose URL contains [/login] or [/refresh] and
    that the server answers with an error: the chain invokes [verifyToken]
    zero times, the only request it sends after it is a logout POST, and it
    ends in an error.  That error is not the server's when the answer is a
    401: on a [/login] URL the snack bar shows and the error carries
    "Invalid email or password"; on a [/refresh] URL (without [/tasks])
    [logout(true)] runs, its POST is sent, the user is sent to [/login] and
    the error is "Session expired". *)
Theorem auth_endpoint_error_no_refresh server parseJwt w req e :
  (includes (url req) "/login" || includes (url req) "/refresh")%bool = true ->
  server (calls w) (attach (client w) req) = RErr e ->
  let '(r, w') := pipeline server parseJwt req w in
  exists new ex, trace w' = (new ++ ESend (attach (client w) req) :: trace w)%list /\
    count_verify new = O /\ (forall r', In (ESend r') new -> url r' = logoutURL) /\
    r = Throw ex /\
    (client_side e = None -> status e = 401 ->
       if includes (url req) "/login"
       then new = [ESnack "Invalid email or password"] /\
            ex = ExnMessage "Invalid email or password"
       else if includes (url req) "/tasks"
       then new = [] /\ ex = ExnHttp e
       else exists c', new = [ESnack session_expired; ENavigate "/login";
                              ESend (attach c' logoutRequest); ELogout true] /\
            ex = ExnMessage session_expired).
Proof.
  intros Hauth Hs. unfold pipeline.
  pose proof (auth_flow server parseJwt 1 w req Hauth) as Hf.
  destruct (http server parseJwt 2 req w) as [r w'].
  destruct Hf as [new [Ht [Hc [_ [Hu Hm]]]]].
  rewrite Hs in Hm. destruct Hm as [[ex ->] H401].
  exists new, ex. split; [exact Ht|]. split; [exact Hc|]. split; [exact Hu|].
  split; [reflexivity|].
  intros Hcs Hst. specialize (H401 Hcs Hst).
  destruct (includes (url req) "/login").
  - destruct H401 as [Hn E]. injection E as <-. auto.
  - destruct (includes (url req) "/tasks").
    + destruct H401 as [Hn E]. injection E as <-. auto.
    + destruct H401 as [c' [Hn E]]. injection E as <-. eauto.
Qed.

Lemma auth_endpoint_error_no_refresh_witness :
  let '(r, w') := pipeline always_401 demo_parseJwt login_request demo_world in
  exists new ex,
    trace w' = (new ++ ESend (attach (client demo_world) login_request) :: trace demo_world)%list /\
    count_verify new = O /\ (forall r', In (ESend r') new -> url r' = logoutURL) /\
    r = Throw ex /\
    (client_side unauthorized = None -> status unauthorized = 401 ->
       if includes (url login_request) "/login"
       then new = [ESnack "Invalid email or password"] /\
            ex = ExnMessage "Invalid email or password"
       else if includes (url login_request) "/tasks"
       then new = [] /\ ex = ExnHttp unauthorized
       else exists c', new = [ESnack session_expired; ENavigate "/login";
                              ESend (attach c' logoutRequest); ELogout true] /\
            ex = ExnMessage session_expired).
Proof.
  apply (auth_endpoint_error_no_refresh always_401 demo_parseJwt demo_world login_request
           unauthorized); reflexivity.
Defined.

(** C4 counterexample.  The refresh POST answered with 401 ("Invalid or
    expired token"): the caller does not get that error but
    "Session expired", and the interceptor has called [logout], whose POST
    has left; no refresh was invoked. *)
Lemma refresh_401_not_reported_as_is :
  let '(r, w') := pipeline always_401 demo_parseJwt (refreshRequest (token demo_user)) demo_world in
  error_message unauthorized = Some "Invalid or expired token" /\
  r = Throw (ExnMessage session_expired) /\ r <> Throw (ExnHttp unauthorized) /\
  count_verify (trace w') = O /\ count_sends_to logoutURL (trace w') = 1%nat /\
  trace w' = [ESnack session_expired; ENavigate "/login";
              ESend (attach demo_session logoutRequest); ELogout true;
              ESend (attach demo_session (refreshRequest (token demo_user)))].
Proof.
  vm_compute. split; [reflexivity|]. split; [reflexivity|]. split; [discriminate|].
  split; [reflexivity|]. split; reflexivity.
Qed.

(** C7.  [logout] never fails and is idempotent: two calls in a row both
    return normally; the first stops the refresh timer (the service holds no
    handle and the callback it held is no longer pending); the session is
    [null] after the logout POST completes, whatever the server answered, and
    after each completion of two logout calls; and from a state with no
    session both calls leave it [null]. *)
Theorem logout_idempotent_clears_state server parseJwt w n1 n2 :
  let '(r1, w1) := logout server n1 w in
  let '(r2, w2) := logout server n2 w1 in
  r1 = Ok tt /\ r2 = Ok tt /\
  refreshTokenTimeout (client w1) = None /\
  (forall h t, refreshTokenTimeout (client w) = Some h -> ~ In (h, t) (timers (client w1))) /\
  current (client (snd (logout_complete server parseJwt w1))) = None /\
  current (client (snd (logout_complete server parseJwt w2))) = None /\
  current (client (snd (logout_complete server parseJwt
                          (snd (logout_complete server parseJwt w2))))) = None /\
  (current (client w) = None -> current (client w1) = None /\ current (client w2) = None).
Proof.
  rewrite logout_eq. cbv beta iota. rewrite logout_eq. cbv beta iota.
  cbn [client].
  split; [reflexivity|]. split; [reflexivity|].
  split.
  { cbn [refreshTokenTimeout set_pendingLogout]. unfold stopRefreshTokenTimer.
    destruct (refreshTokenTimeout (client w)) eqn:Hr; [reflexivity|exact Hr]. }
  split.
  { intros h t Hh. cbn [timers set_pendingLogout]. apply stop_removes, Hh. }
  split; [apply logout_complete_clears; cbn; apply pending_app_ne|].
  split; [apply logout_complete_clears; cbn; apply pending_app_ne|].
  split.
  { apply logout_complete_clears, logout_complete_leaves.
    cbn [client pendingLogout set_pendingLogout]. rewrite !length_app. cbn. lia. }
  intros Hn. cbn [current set_pendingLogout]. rewrite !stop_current.
  cbn [current set_pendingLogout]. rewrite stop_current. split; exact Hn.
Qed.

(** C8 (code bug).  Along any run of the session transitions from a state
    with no pending refresh callback, at most one refresh callback is ever
    pending (and it is the one whose handle the service holds).  Arming the
    timer with a token that decodes to expiry [e] first cancels the pending
    callback.  When [e * 1000] is a valid date and [timeout = e * 1000 - now -
    60000] is positive, a single callback is scheduled after
    [setTimeout_delay timeout] ms: at [e * 1000 - 60000] when [timeout < 2^31],
    but at once when [2^31 <= timeout < 2^32].  Otherwise nothing is scheduled
    and the refresh runs at once.  [logout] leaves no callback pending. *)
Theorem refresh_timer_schedule parseJwt c0 c :
  timers c0 = [] ->
  clos_refl_trans _ (client_step parseJwt) c0 c ->
  one_timer c /\
  (forall now_ms u e, current c = Some u -> truthy (token u) = true ->
     jwt_exp parseJwt (token u) = Some e ->
     let timeout := e * 1000 - now_ms - 60 * 1000 in
     let '(c', fire) := startRefreshTokenTimer parseJwt now_ms c in
     if (Z.abs (e * 1000) <=? max_time) && (0 <? timeout)
     then fire = false /\
          exists h, refreshTokenTimeout c' = Some h /\
            timers c' = [(h, now_ms + setTimeout_delay timeout)] /\
            (timeout < 2 ^ 31 -> timers c' = [(h, e * 1000 - 60 * 1000)]) /\
            (2 ^ 31 <= timeout < 2 ^ 32 -> timers c' = [(h, now_ms)])
     else fire = true /\ timers c' = [] /\ refreshTokenTimeout c' = None) /\
  (forall server nav w, client w = c ->
     timers (client (snd (logout server nav w))) = [] /\
     refreshTokenTimeout (client (snd (logout server nav w))) = None).
Proof.
  intros H0 Hr.
  assert (Hinv : one_timer c).
  { apply (one_timer_reach parseJwt c0 c Hr). split; rewrite H0; cbn; [lia|tauto]. }
  split; [exact Hinv|]. split.
  - intros now_ms u e Hu Ht He timeout.
    destruct (stop_one_timer c Hinv) as [Hst Hsn].
    unfold startRefreshTokenTimer. rewrite stop_current, Hu, Ht, He. cbn [negb].
    destruct (Z.leb_spec (Z.abs (e * 1000)) max_time) as [Hm|Hm].
    + assert (Hm' : (max_time <? Z.abs (e * 1000)) = false) by (apply Z.ltb_ge; lia).
      rewrite Hm'. fold timeout. cbn [andb].
      destruct (Z.ltb_spec 0 timeout) as [Hpos|Hneg].
      * split; [reflexivity|].
        eexists; split; [reflexivity|]. cbn. rewrite Hst. cbn.
        split; [reflexivity|]. split.
        -- intros Hs. rewrite setTimeout_delay_small by lia. f_equal. f_equal. subst timeout. lia.
        -- intros Hs. rewrite setTimeout_delay_wrap by lia. f_equal. f_equal. lia.
      * split; [reflexivity|]. split; assumption.
    + assert (Hm' : (max_time <? Z.abs (e * 1000)) = true) by (apply Z.ltb_lt; lia).
      rewrite Hm'. cbn [andb]. split; [reflexivity|]. split; assumption.
  - intros server nav w Hw. rewrite logout_eq, Hw.
    cbn [client timers refreshTokenTimeout set_pendingLogout].
    exact (stop_one_timer c Hinv).
Qed.

Lemma refresh_timer_schedule_witness :
  one_timer demo_session /\
  (forall now_ms u e, current demo_session = Some u -> truthy (token u) = true ->
     jwt_exp demo_parseJwt (token u) = Some e ->
     let timeout := e * 1000 - now_ms - 60 * 1000 in
     let '(c', fire) := startRefreshTokenTimer demo_parseJwt now_ms demo_session in
     if (Z.abs (e * 1000) <=? max_time) && (0 <? timeout)
     then fire = false /\
          exists h, refreshTokenTimeout c' = Some h /\
            timers c' = [(h, now_ms + setTimeout_delay timeout)] /\
            (timeout < 2 ^ 31 -> timers c' = [(h, e * 1000 - 60 * 1000)]) /\
            (2 ^ 31 <= timeout < 2 ^ 32 -> timers c' = [(h, now_ms)])
     else fire = true /\ timers c' = [] /\ refreshTokenTimeout c' = None) /\
  (forall server nav w, client w = demo_session ->
     timers (client (snd (logout server nav w))) = [] /\
     refreshTokenTimeout (client (snd (logout server nav w))) = None).
Proof.
  apply (refresh_timer_schedule demo_parseJwt demo_session demo_session).
  - reflexivity.
  - apply rt_refl.
Defined.

(** C8 counterexample.  A token that expires thirty days from now (as
    [JWT_EXPIRES_IN=30d] gives): the timeout, 2 591 940 000 ms, exceeds
    2^31 - 1, and the timer is armed to fire at once instead of a minute
    before the expiry. *)
Lemma thirty_day_token_timer_fires_now :
  let now_ms := demo_exp * 1000 - 30 * 24 * 3600 * 1000 in
  demo_exp * 1000 - now_ms - 60 * 1000 = 2591940000 /\
  startRefreshTokenTimer demo_parseJwt now_ms demo_session =
    (set_timer (Some 1%positive) [(1%positive, now_ms)] 2%positive demo_session, false) /\
  now_ms <> demo_exp * 1000 - 60 * 1000.
Proof. cbv zeta. split; [reflexivity|]. split; [vm_compute; reflexivity|]. lia. Qed.
(** ** Server: properties *)

Module ServerFacts.

Import Server.

(** *** Strings *)

Lemma ts_head s :
  trim_start s = "" \/ exists c t, trim_start s = String c t /\ is_ws c = false.
Proof.
  induction s as [|c s IH]; cbn; [auto|].
  destruct (is_ws c) eqn:E; [exact IH|right; eauto].
Qed.

Lemma ts_fixed s :
  (s = "" \/ exists c t, s = String c t /\ is_ws c = false) -> trim_start s = s.
Proof. intros [->|[c [t [-> E]]]]; cbn; [reflexivity|]. rewrite E. reflexivity. Qed.

Lemma ts_idem s : trim_start (trim_start s) = trim_start s.
Proof. apply ts_fixed, ts_head. Qed.

Lemma ts_suffix s :
  exists p, list_ascii_of_string s = (p ++ list_ascii_of_string (trim_start s))%list.
Proof.
  induction s as [|c s [p IH]]; cbn.
  - exists []. reflexivity.
  - destruct (is_ws c).
    + exists (c :: p). cbn. rewrite IH. reflexivity.
    + exists []. reflexivity.
Qed.

(** [trim] is idempotent. *)
Lemma trim_idem s : trim (trim s) = trim s.
Proof.
  set (x := trim_start s).
  set (y := trim_start (string_of_list_ascii (rev (list_ascii_of_string x)))).
  assert (Ht : trim s = string_of_list_ascii (rev (list_ascii_of_string y))) by reflexivity.
  assert (Hy : trim_start y = y) by apply ts_idem.
  assert (Hz : trim_start (trim s) = trim s).
  { apply ts_fixed. rewrite Ht.
    destruct (rev (list_ascii_of_string y)) as [|d r] eqn:Er; [left; reflexivity|].
    destruct (ts_suffix (string_of_list_ascii (rev (list_ascii_of_string x)))) as [p Hp].
    rewrite list_ascii_of_string_of_list_ascii in Hp. fold y in Hp.
    assert (Ey : list_ascii_of_string y = rev (d :: r))
      by (rewrite <- Er, rev_involutive; reflexivity).
    rewrite Ey in Hp.
    apply (f_equal (@rev ascii)) in Hp.
    rewrite rev_involutive, rev_app_distr, rev_involutive in Hp. cbn in Hp.
    destruct (ts_head s) as [Hx|[c [t [Hx Hc]]]]; fold x in Hx; rewrite Hx in Hp.
    - cbn in Hp. destruct (rev p); discriminate.
    - cbn in Hp. destruct (rev p) as [|c' p']; cbn in Hp; injection Hp as -> _;
        right; exists d, (string_of_list_ascii r); split; auto. }
  unfold trim at 1. rewrite Hz. unfold trim_end at 1. rewrite Ht.
  rewrite list_ascii_of_string_of_list_ascii, rev_involutive,
    string_of_list_ascii_of_string, Hy.
  reflexivity.
Qed.

Lemma ts_nonws s :
  forallb (fun c => negb (is_ws c)) (list_ascii_of_string s) = true -> trim_start s = s.
Proof.
  destruct s as [|c s]; cbn; [auto|]. intros H.
  apply andb_prop in H as [H _]. destruct (is_ws c); [discriminate|reflexivity].
Qed.

(** A string without white space is its own [trim]. *)
Lemma trim_nonws s :
  forallb (fun c => negb (is_ws c)) (list_ascii_of_string s) = true -> trim s = s.
Proof.
  intros H. unfold trim, trim_end. rewrite (ts_nonws s H).
  rewrite ts_nonws.
  - rewrite list_ascii_of_string_of_list_ascii, rev_involutive,
      string_of_list_ascii_of_string. reflexivity.
  - rewrite list_ascii_of_string_of_list_ascii. apply forallb_forall.
    intros c Hc. rewrite <- in_rev in Hc. rewrite forallb_forall in H. auto.
Qed.

Lemma email_ok_nonws l b :
  email_ok l b = true -> forallb (fun c => negb (is_ws c)) l = true.
Proof.
  revert b. induction l as [|c l IH]; intros b; cbn; [discriminate|].
  destruct (Ascii.eqb c "@") eqn:E.
  - apply Ascii.eqb_eq in E. subst c. cbn. intros H.
    apply andb_prop in H as [_ H]. unfold domain_ok in H.
    apply andb_prop in H as [H _]. clear IH. induction l as [|c l IH]; cbn; auto.
    apply andb_prop in H as [Hp H]. unfold plain in Hp.
    apply andb_prop in Hp as [Hw _]. rewrite Hw. cbn. apply IH, H.
  - intros H. apply andb_prop in H as [H1 H2]. rewrite H1. cbn. eapply IH, H2.
Qed.

(** A valid email has no white space, so [trim] leaves it alone. *)
Lemma trim_valid_email e : isValidEmail e = true -> trim e = e.
Proof. intros H. apply trim_nonws. eapply email_ok_nonws, H. Qed.

(** *** The entity and the repository *)

Lemma User_new_spec d u :
  User_new d = Done u ->
  name u = name d /\ email u = email d /\ password u = password d /\ entity_ok d.
Proof.
  unfold User_new. cbn [name email password role].
  destruct (negb (truthy (name d)) || (String.length (trim (name d)) <? 2)%nat)%bool eqn:H1;
    [discriminate|].
  destruct (negb (truthy (email d)) || negb (isValidEmail (email d)))%bool eqn:H2;
    [discriminate|].
  destruct (negb (truthy (password d)) || (String.length (password d) <? 6)%nat)%bool eqn:H3;
    [discriminate|].
  intros H. injection H as <-. cbn.
  apply orb_false_iff in H1 as [_ H1]. apply orb_false_iff in H2 as [_ H2].
  apply orb_false_iff in H3 as [_ H3].
  apply Nat.ltb_ge in H1. apply Nat.ltb_ge in H3. apply negb_false_iff in H2.
  repeat split; auto.
Qed.

Lemma User_new_complete d : entity_ok d -> exists u, User_new d = Done u.
Proof.
  intros [H1 [H2 H3]]. unfold User_new. cbn [name email password role].
  assert (Tn : truthy (name d) = true).
  { unfold truthy. destruct (String.eqb_spec (name d) "") as [E|]; [|reflexivity].
    rewrite E in H1. cbn in H1. lia. }
  assert (Te : truthy (email d) = true).
  { unfold truthy. destruct (String.eqb_spec (email d) "") as [E|]; [|reflexivity].
    rewrite E in H2. discriminate. }
  assert (Tp : truthy (password d) = true).
  { unfold truthy. destruct (String.eqb_spec (password d) "") as [E|]; [|reflexivity].
    rewrite E in H3. cbn in H3. lia. }
  rewrite Tn, Te, Tp, H2. apply Nat.ltb_ge in H1. apply Nat.ltb_ge in H3.
  rewrite H1, H3. cbn. eauto.
Qed.

Lemma UserModel_create_spec L d s doc s' :
  UserModel_create L d s = (Done doc, s') ->
  s' = (s ++ [doc])%list /\ doc_name doc = trim (name d) /\
  doc_email doc = toLowerCase (trim (email d)) /\
  doc_password doc = bcrypt_hash L (password d) /\
  (2 <= String.length (doc_name doc))%nat /\ isValidEmail (doc_email doc) = true /\
  (6 <= String.length (password d))%nat.
Proof.
  unfold UserModel_create.
  match goal with |- context [if negb ?b then _ else _] => destruct b eqn:Hv end;
    cbn [negb]; [|discriminate].
  destruct (0 <? countDocuments_email s _)%nat; [discriminate|].
  intros H. injection H as <- <-. cbn.
  repeat rewrite andb_true_iff in Hv.
  destruct Hv as [[[[[[_ Hn] _] He] _] Hp] _].
  apply Nat.leb_le in Hn. apply Nat.leb_le in Hp.
  repeat split; auto.
Qed.

Lemma UserModel_create_store L d s :
  snd (UserModel_create L d s) = s \/
  exists doc, UserModel_create L d s = (Done doc, (s ++ [doc])%list).
Proof.
  unfold UserModel_create.
  match goal with |- context [if negb ?b then _ else _] => destruct b end;
    cbn [negb]; [|auto].
  destruct (0 <? countDocuments_email s _)%nat; [auto|]. right. eauto.
Qed.

Lemma stored_ok_created L d s doc s' :
  UserModel_create L d s = (Done doc, s') -> stored_ok L doc.
Proof.
  intros H. apply UserModel_create_spec in H as [_ [Hn [_ [Hp [Hl [He Hpl]]]]]].
  split; [|split; [exact He|eauto]].
  rewrite Hn, trim_idem. rewrite <- Hn. exact Hl.
Qed.

Lemma create_preserves L d s :
  Forall (stored_ok L) s -> Forall (stored_ok L) (snd (UserModel_create L d s)).
Proof.
  intros Hs. destruct (UserModel_create_store L d s) as [E|[doc E]].
  - rewrite E. exact Hs.
  - rewrite E. cbn. apply Forall_app. split; [exact Hs|].
    constructor; [|constructor]. eapply stored_ok_created, E.
Qed.

Lemma repo_preserves L d s :
  Forall (stored_ok L) s -> Forall (stored_ok L) (snd (UserRepository_create L d s)).
Proof.
  intros Hs. unfold UserRepository_create.
  destruct (User_new d); [apply create_preserves, Hs|exact Hs].
Qed.

Lemma emailExists_lower s e1 e2 :
  toLowerCase e1 = toLowerCase e2 ->
  findByEmail s e1 = findByEmail s e2 /\ emailExists s e1 = emailExists s e2.
Proof. intros E. unfold findByEmail, emailExists. rewrite E. auto. Qed.

(** *** Claims about the server *)

(** C10: [new User(...)] succeeds exactly on the entities whose trimmed name
    has at least 2 characters, whose email matches the email pattern and whose
    password has at least 6 characters, and it returns such an entity;
    [UserRepository.create] only stores a document that meets the same rules
    (its name and email as stored, its hash made from such a password); and
    neither [UserRepository.create] nor [RegisterUserUseCase.execute] ever
    adds a document that breaks them to a store that meets them. *)
Theorem user_validation_invariant L :
  (forall d, (exists u, User_new d = Done u) <-> entity_ok d) /\
  (forall d u, User_new d = Done u -> entity_ok u) /\
  (forall d s doc s', UserRepository_create L d s = (Done doc, s') ->
     entity_ok d /\ stored_ok L doc) /\
  (forall d s, Forall (stored_ok L) s ->
     Forall (stored_ok L) (snd (UserRepository_create L d s))) /\
  (forall inp s, Forall (stored_ok L) s ->
     Forall (stored_ok L) (snd (RegisterUserUseCase_execute L inp s))).
Proof.
  split; [|split; [|split; [|split]]].
  - intros d. split.
    + intros [u Hu]. apply (User_new_spec d u Hu).
    + apply User_new_complete.
  - intros d u Hu. destruct (User_new_spec d u Hu) as [En [Ee [Ep Hok]]].
    unfold entity_ok in *. rewrite En, Ee, Ep. exact Hok.
  - intros d s doc s'. unfold UserRepository_create.
    destruct (User_new d) as [u|] eqn:Hu; [|discriminate]. intros H. split.
    + apply (User_new_spec d u Hu).
    + eapply stored_ok_created, H.
  - apply repo_preserves.
  - intros inp s Hs. unfold RegisterUserUseCase_execute.
    destruct (emailExists s (ri_email inp)); [exact Hs|].
    destruct (User_new _); [apply repo_preserves, Hs|exact Hs].
Qed.

(** C6: once [RegisterUserUseCase.execute] has stored a user, a registration
    whose email has the same lower case fails with "Email already in use"
    from the [emailExists] check that precedes any insert, and the store is
    left as it was; [AuthController.register] turns that failure into an
    [AppError] with status 400, which it throws.  Lookups by email compare
    lower-cased emails: any spelling of the email finds the stored user. *)
Theorem duplicate_email_rejected L inp1 inp2 s u1 s1 :
  RegisterUserUseCase_execute L inp1 s = (Done u1, s1) ->
  toLowerCase (ri_email inp2) = toLowerCase (ri_email inp1) ->
  s1 = (s ++ [u1])%list /\
  RegisterUserUseCase_execute L inp2 s1 = (Fail (plain_error "Email already in use"), s1) /\
  AuthController_register L (Some (ri_name inp2)) (Some (ri_email inp2))
    (Some (ri_password inp2)) s1 =
    (Unanswered (AppError "Email already in use" 400), s1) /\
  (forall e, toLowerCase e = toLowerCase (ri_email inp1) ->
     findByEmail s1 e = Some u1 /\ emailExists s1 e = true).
Proof.
  intros H E.
  unfold RegisterUserUseCase_execute in H.
  destruct (emailExists s (ri_email inp1)) eqn:Hx; [discriminate|].
  destruct (User_new _) as [user|] eqn:Hu; [|discriminate].
  destruct (User_new_spec _ _ Hu) as [_ [Eu [_ [_ [Hval _]]]]]. cbn in Eu, Hval.
  unfold UserRepository_create in H. destruct (User_new user); [|discriminate].
  apply UserModel_create_spec in H as [-> [_ [Hem _]]].
  rewrite Eu, (trim_valid_email _ Hval) in Hem.
  assert (Hf : forall e, toLowerCase e = toLowerCase (ri_email inp1) ->
            findByEmail (s ++ [u1])%list e = Some u1 /\ emailExists (s ++ [u1])%list e = true).
  { intros e Ee. unfold findByEmail, emailExists, countDocuments_email.
    rewrite Ee, <- Hem.
    unfold emailExists, countDocuments_email in Hx. rewrite <- Hem in Hx.
    apply Nat.ltb_ge in Hx.
    rewrite filter_app, length_app. cbn [filter]. rewrite String.eqb_refl.
    split; [|cbn [length]; apply Nat.ltb_lt; lia].
    clear -Hx. induction s as [|a s IH]; cbn [find Datatypes.app].
    - rewrite String.eqb_refl. reflexivity.
    - cbn [filter] in Hx. destruct (String.eqb (doc_email a) (doc_email u1)).
      + cbn in Hx. lia.
      + apply IH, Hx. }
  destruct (Hf (ri_email inp2) E) as [_ Hx2].
  split; [reflexivity|]. split; [|split].
  - unfold RegisterUserUseCase_execute. rewrite Hx2. reflexivity.
  - unfold AuthController_register, RegisterUserUseCase_execute. cbn [ri_email].
    rewrite Hx2. reflexivity.
  - exact Hf.
Qed.

Lemma duplicate_email_rejected_witness :
  RegisterUserUseCase_execute demo_libs alice [] = (Done alice_doc, alice_store) /\
  toLowerCase "ALICE@example.COM" = toLowerCase (ri_email alice) /\
  alice_store = ([] ++ [alice_doc])%list /\
  RegisterUserUseCase_execute demo_libs (mkRegisterUserInput "Bob" "ALICE@example.COM" "secret2" "")
    alice_store = (Fail (plain_error "Email already in use"), alice_store) /\
  AuthController_register demo_libs (Some "Bob") (Some "ALICE@example.COM") (Some "secret2")
    alice_store = (Unanswered (AppError "Email already in use" 400), alice_store) /\
  (forall e, toLowerCase e = toLowerCase (ri_email alice) ->
     findByEmail alice_store e = Some alice_doc /\ emailExists alice_store e = true).
Proof.
  assert (H1 : RegisterUserUseCase_execute demo_libs alice [] = (Done alice_doc, alice_store))
    by (vm_compute; reflexivity).
  assert (H2 : toLowerCase "ALICE@example.COM" = toLowerCase (ri_email alice))
    by (vm_compute; reflexivity).
  split; [exact H1|]. split; [exact H2|].
  exact (duplicate_email_rejected demo_libs alice
           (mkRegisterUserInput "Bob" "ALICE@example.COM" "secret2" "")
           [] alice_doc alice_store H1 H2).
Defined.

(** C5: [LoginUserUseCase.execute] rejects an unknown email and a wrong
    password for a known one with the same error, "Invalid email or
    password", and [AuthController.login] turns both into the same
    [AppError] with status 401, which it throws out of its [async] body: on
    [POST /api/auth/login] neither request gets a response, and the store is
    left alone. *)
Theorem login_failures_indistinguishable L routes docs s1 e1 p1 s2 e2 p2 u2 d2 a ck n :
  findByEmail s1 e1 = None ->
  findByEmail s2 e2 = Some u2 ->
  findById L s2 (doc_id u2) = Done (Some d2) ->
  bcrypt_compare L p2 (doc_password d2) = false ->
  LoginUserUseCase_execute L (Some e1) p1 s1 = Fail (plain_error "Invalid email or password") /\
  LoginUserUseCase_execute L (Some e2) (Some p2) s2 =
    Fail (plain_error "Invalid email or password") /\
  app L routes docs (mkHttpReq "POST" "/api/auth/login" a ck None n (Some e1) p1) s1 =
    (Unanswered (AppError "Invalid email or password" 401), s1) /\
  app L routes docs (mkHttpReq "POST" "/api/auth/login" a ck None n (Some e2) (Some p2)) s2 =
    (Unanswered (AppError "Invalid email or password" 401), s2).
Proof.
  intros H1 H2 H3 H4.
  assert (L1 : LoginUserUseCase_execute L (Some e1) p1 s1 =
               Fail (plain_error "Invalid email or password"))
    by (unfold LoginUserUseCase_execute; rewrite H1; reflexivity).
  assert (L2 : LoginUserUseCase_execute L (Some e2) (Some p2) s2 =
               Fail (plain_error "Invalid email or password"))
    by (unfold LoginUserUseCase_execute, comparePassword; rewrite H2, H3, H4; reflexivity).
  assert (Happ : forall e p s,
             app L routes docs (mkHttpReq "POST" "/api/auth/login" a ck None n e p) s =
             (AuthController_login L e p s, s)) by reflexivity.
  rewrite !Happ. unfold AuthController_login. rewrite L1, L2. auto.
Qed.

Lemma login_failures_indistinguishable_witness :
  findByEmail alice_store "nobody@example.com" = None /\
  findByEmail alice_store "Alice@Example.com" = Some alice_doc /\
  findById demo_libs alice_store (doc_id alice_doc) = Done (Some alice_doc) /\
  bcrypt_compare demo_libs "wrong-password" (doc_password alice_doc) = false /\
  LoginUserUseCase_execute demo_libs (Some "nobody@example.com") (Some "secret1") alice_store =
    Fail (plain_error "Invalid email or password") /\
  LoginUserUseCase_execute demo_libs (Some "Alice@Example.com") (Some "wrong-password")
    alice_store = Fail (plain_error "Invalid email or password") /\
  app demo_libs demo_routes demo_docs
    (mkHttpReq "POST" "/api/auth/login" None None None None (Some "nobody@example.com")
       (Some "secret1")) alice_store =
    (Unanswered (AppError "Invalid email or password" 401), alice_store) /\
  app demo_libs demo_routes demo_docs
    (mkHttpReq "POST" "/api/auth/login" None None None None (Some "Alice@Example.com")
       (Some "wrong-password")) alice_store =
    (Unanswered (AppError "Invalid email or password" 401), alice_store).
Proof.
  assert (H1 : findByEmail alice_store "nobody@example.com" = None) by (vm_compute; reflexivity).
  assert (H2 : findByEmail alice_store "Alice@Example.com" = Some alice_doc)
    by (vm_compute; reflexivity).
  assert (H3 : findById demo_libs alice_store (doc_id alice_doc) = Done (Some alice_doc))
    by (vm_compute; reflexivity).
  assert (H4 : bcrypt_compare demo_libs "wrong-password" (doc_password alice_doc) = false)
    by (vm_compute; reflexivity).
  split; [exact H1|]. split; [exact H2|]. split; [exact H3|]. split; [exact H4|].
  exact (login_failures_indistinguishable demo_libs demo_routes demo_docs alice_store
           "nobody@example.com" (Some "secret1") alice_store "Alice@Example.com" "wrong-password"
           alice_doc alice_doc None None None H1 H2 H3 H4).
Defined.

(** *** Routing *)

Lemma prefix_app a r : String.prefix a (a ++ r) = true.
Proof.
  induction a as [|c a IH]; cbn; [destruct r; reflexivity|].
  destruct (ascii_dec c c); [exact IH|congruence].
Qed.

Lemma prefix_split a p : String.prefix a p = true -> exists r, p = a ++ r.
Proof.
  revert p. induction a as [|c a IH]; intros p H; [exists p; reflexivity|].
  destruct p as [|c' p]; [discriminate|]. cbn in H.
  destruct (ascii_dec c c') as [<-|]; [|discriminate].
  destruct (IH p H) as [r ->]. exists r. reflexivity.
Qed.

(** [under] looks at the lower case of the path only. *)
Lemma under_lower p b : under p b = under_l (toLowerCase p) (toLowerCase b).
Proof. reflexivity. Qed.

Lemma str_app_assoc a b c : (a ++ b) ++ c = a ++ b ++ c.
Proof. induction a as [|x a IH]; cbn; [reflexivity|rewrite IH; reflexivity]. Qed.

Lemma str_app_nil a : a ++ "" = a.
Proof. induction a as [|x a IH]; cbn; [reflexivity|rewrite IH; reflexivity]. Qed.

Lemma under_l_cases lp lb :
  under_l lp lb = true -> lp = lb \/ exists r, lp = lb ++ "/" ++ r.
Proof.
  unfold under_l, startsWith. intros H.
  apply orb_prop in H as [H|H]; [apply orb_prop in H as [H|H]|].
  - left. apply String.eqb_eq, H.
  - right. exists "". apply String.eqb_eq in H. rewrite H. reflexivity.
  - right. destruct (prefix_split _ _ H) as [r ->]. exists r.
    rewrite str_app_assoc. reflexivity.
Qed.

Lemma under_not_auth p :
  (under p "/api/users" || under p "/api/tasks")%bool = true ->
  under p "/api/auth" = false /\ under p "/api-docs" = false.
Proof.
  rewrite !under_lower. intros H.
  apply orb_prop in H as [H|H]; apply under_l_cases in H as [H|[r H]];
    rewrite H; split; reflexivity.
Qed.

Lemma upto_space_nospace t :
  forallb (fun c => negb (Ascii.eqb c " ")) (list_ascii_of_string t) = true -> upto_space t = t.
Proof.
  induction t as [|c t IH]; cbn; [reflexivity|]. intros H.
  apply andb_prop in H as [H1 H2]. destruct (Ascii.eqb c " "); [discriminate|].
  rewrite IH by exact H2. reflexivity.
Qed.

(** The request the browser sends for [autoLogin]'s GET. *)
Lemma to_http_req_verify cookie c :
  exists a ck, to_http_req cookie (attach c verifyRequest) =
               mkHttpReq "GET" "/api/auth/verify" a ck None None None None.
Proof.
  unfold to_http_req. rewrite url_attach.
  assert (Hm : method (attach c verifyRequest) = "GET").
  { unfold attach. cbv zeta. destruct (current c) as [u|]; [destruct (truthy (token u))|];
      reflexivity. }
  rewrite Hm. do 2 eexists. reflexivity.
Qed.

Lemma verify_404 L routes docs s a ck n e p :
  app L routes docs (mkHttpReq "GET" "/api/auth/verify" a ck None n e p) s =
    (Reply (mkResp 404 (JErrorMessage "Route /api/auth/verify not found")), s).
Proof. reflexivity. Qed.

Lemma autoLogin_deployed L routes docs s cookie parseJwt w :
  autoLogin (deployed L routes docs s cookie) parseJwt w =
    (Ok tt, mkWorld (set_current None (client w)) (now w) (S (calls w))
              (ESnack "Resource not found." :: ESend (attach (client w) verifyRequest)
               :: trace w)).
Proof.
  assert (Hr : forall k, deployed L routes docs s cookie k (attach (client w) verifyRequest) =
                         RErr (mkHttpError 404 None "Not Found" None)).
  { intros k. unfold deployed. destruct (to_http_req_verify cookie (client w)) as [a [ck ->]].
    rewrite verify_404. reflexivity. }
  unfold autoLogin, pipeline. rewrite http_S.
  cbv [catchError bind auth_intercept get_client error_intercept backend send].
  rewrite Hr.
  cbv [on_exn on_error initial_message finish tell throw modify_client ret]. cbn.
  reflexivity.
Qed.

(** C3 (the server side): the application has no [GET /api/auth/verify]
    route: whatever the headers and the cookie, the request falls through to
    [notFound] and gets 404.  So [autoLogin], whose GET goes to that path,
    never sees a 200 on the deployed server: its request fails with 404, the
    [ErrorInterceptor] opens the snack bar with "Resource not found.", and
    [autoLogin] then sets the user to [null]. *)
Theorem verify_route_missing L routes docs s a ck n e p cookie parseJwt w :
  app L routes docs (mkHttpReq "GET" "/api/auth/verify" a ck None n e p) s =
    (Reply (mkResp 404 (JErrorMessage "Route /api/auth/verify not found")), s) /\
  fst (autoLogin (deployed L routes docs s cookie) parseJwt w) = Ok tt /\
  current (client (snd (autoLogin (deployed L routes docs s cookie) parseJwt w))) = None /\
  In (ESnack "Resource not found.")
     (trace (snd (autoLogin (deployed L routes docs s cookie) parseJwt w))).
Proof.
  split; [apply verify_404|]. rewrite autoLogin_deployed. cbn.
  split; [reflexivity|]. split; [|left; reflexivity].
  unfold set_current. reflexivity.
Qed.

(** The refresh route, reached by a [POST] whose path is [/api/auth/refresh]
    in any letter case, with or without a trailing slash. *)
Lemma app_refresh L routes docs req s :
  hr_method req = "POST" -> parse_error req = None ->
  path_eq (pathname (hr_path req)) "/api/auth/refresh" = true ->
  app L routes docs req s =
    (match validateToken L req with
     | MwRespond r => Reply r
     | MwNext _ => Reply (AuthController_refreshToken L None req s)
     end, s).
Proof.
  intros Hm Hpe Hp. unfold app. cbv zeta. rewrite Hm, Hpe.
  unfold path_eq in Hp. cbv zeta in Hp.
  rewrite !under_lower. unfold route, path_eq, method_ok. cbv zeta. rewrite Hm.
  apply orb_prop in Hp as [Hp|Hp]; apply String.eqb_eq in Hp; rewrite Hp;
    cbn; destruct (validateToken L req); reflexivity.
Qed.

(** C9: on the routes of [/api/users] and [/api/tasks] the token is read
    only from the [Authorization: Bearer] header ([authenticate]): a request
    without that header gets 401 "Authentication required" whatever cookie it
    carries, and with [Bearer t] the handlers run exactly when
    [jwt.verify(t)] accepts [t].  The refresh route is behind
    [validateToken], which also reads only the header: without it the answer
    is 401 "Token required".  (Requests that [cors] answers, [OPTIONS], and
    bodies that do not parse are set aside.) *)
Theorem protected_routes_bearer_only L routes docs req s :
  (under (pathname (hr_path req)) "/api/users" ||
   under (pathname (hr_path req)) "/api/tasks")%bool = true ->
  hr_method req <> "OPTIONS" -> parse_error req = None ->
  (authorization req = None ->
     app L routes docs req s =
       (Reply (mkResp 401 (JErrorText "Authentication required")), s)) /\
  (forall t, authorization req = Some ("Bearer " ++ t) -> truthy t = true ->
     forallb (fun c => negb (Ascii.eqb c " ")) (list_ascii_of_string t) = true ->
     app L routes docs req s =
       match jwt_verify L t with
       | JwtValid c => routes c req s
       | _ => (Reply (mkResp 401 (JErrorText "Invalid or expired token")), s)
       end) /\
  (forall req', hr_method req' = "POST" ->
     path_eq (pathname (hr_path req')) "/api/auth/refresh" = true ->
     parse_error req' = None -> authorization req' = None ->
     app L routes docs req' s = (Reply (mkResp 401 (JErrorText "Token required")), s)).
Proof.
  intros Hp Hm Hpe.
  destruct (under_not_auth _ Hp) as [Ha Hd].
  assert (Hmo : String.eqb (hr_method req) "OPTIONS" = false)
    by (apply String.eqb_neq, Hm).
  assert (Happ : app L routes docs req s =
                 match authenticate L req with
                 | MwRespond r => (Reply r, s)
                 | MwNext c => routes c req s
                 end)
    by (unfold app; cbv zeta; rewrite Hmo, Hpe, Hd, Ha, Hp; reflexivity).
  rewrite Happ. split; [|split].
  - intros Hn. unfold authenticate. rewrite Hn. reflexivity.
  - intros t Ht Htr Hns. unfold authenticate. rewrite Ht.
    replace (split_space_1 ("Bearer " ++ t)) with t
      by (unfold split_space_1; cbn; symmetry; apply upto_space_nospace, Hns).
    assert (Hpre : String.prefix "" t = true) by (destruct t; reflexivity).
    rewrite Htr. cbn. rewrite Hpre. cbn. destruct (jwt_verify L t); reflexivity.
  - intros req' Hm' Hq Hpe' Hn. rewrite (app_refresh L routes docs req' s Hm' Hpe' Hq).
    unfold validateToken. rewrite Hn. reflexivity.
Qed.

Lemma protected_routes_bearer_only_witness :
  let req := mkHttpReq "GET" "/API/Tasks/" (Some "Bearer jwt.id0") (Some "jwt.id0") None
               None None None in
  (under (pathname (hr_path req)) "/api/users" ||
   under (pathname (hr_path req)) "/api/tasks")%bool = true /\
  hr_method req <> "OPTIONS" /\ parse_error req = None /\
  (authorization req = None ->
     app demo_libs demo_routes demo_docs req alice_store =
       (Reply (mkResp 401 (JErrorText "Authentication required")), alice_store)) /\
  (forall t, authorization req = Some ("Bearer " ++ t) -> truthy t = true ->
     forallb (fun c => negb (Ascii.eqb c " ")) (list_ascii_of_string t) = true ->
     app demo_libs demo_routes demo_docs req alice_store =
       match jwt_verify demo_libs t with
       | JwtValid c => demo_routes c req alice_store
       | _ => (Reply (mkResp 401 (JErrorText "Invalid or expired token")), alice_store)
       end) /\
  (forall req', hr_method req' = "POST" ->
     path_eq (pathname (hr_path req')) "/api/auth/refresh" = true ->
     parse_error req' = None -> authorization req' = None ->
     app demo_libs demo_routes demo_docs req' alice_store =
       (Reply (mkResp 401 (JErrorText "Token required")), alice_store)).
Proof.
  cbv zeta.
  assert (H1 : (under (pathname "/API/Tasks/") "/api/users" ||
                under (pathname "/API/Tasks/") "/api/tasks")%bool = true)
    by (vm_compute; reflexivity).
  assert (H2 : "GET" <> "OPTIONS") by discriminate.
  split; [exact H1|]. split; [exact H2|]. split; [reflexivity|].
  exact (protected_routes_bearer_only demo_libs demo_routes demo_docs
           (mkHttpReq "GET" "/API/Tasks/" (Some "Bearer jwt.id0") (Some "jwt.id0") None
              None None None)
           alice_store H1 H2 eq_refl).
Defined.

(** C9: a token that [jwt.verify] accepts, carried only in the cookie, is
    refused by [/api/tasks] and by the refresh route, while the same token in
    the [Authorization] header is accepted. *)
Lemma cookie_only_token_rejected :
  jwt_verify demo_libs "jwt.id0" = JwtValid (mkClaims (Some "id0") "alice@example.com" "user") /\
  app demo_libs demo_routes demo_docs
    (mkHttpReq "GET" "/api/tasks" None (Some "jwt.id0") None None None None) alice_store =
    (Reply (mkResp 401 (JErrorText "Authentication required")), alice_store) /\
  app demo_libs demo_routes demo_docs
    (mkHttpReq "GET" "/api/tasks" (Some "Bearer jwt.id0") None None None None None)
    alice_store = (Reply (mkResp 200 (JOk "ok")), alice_store) /\
  app demo_libs demo_routes demo_docs
    (mkHttpReq "POST" "/api/auth/refresh" None (Some "jwt.id0") None None None None)
    alice_store = (Reply (mkResp 401 (JErrorText "Token required")), alice_store).
Proof.
  split; [reflexivity|]. split; [vm_compute; reflexivity|].
  split; vm_compute; reflexivity.
Qed.

End ServerFacts.

(* ------------------------------------------------------------------------- *)
(** ** Client: further properties *)

Module ClientExtras.

Lemma attach_non_api c req : startsWith (url req) apiUrl = false -> attach c req = req.
Proof.
  intros H. unfold attach. rewrite H.
  destruct (current c) as [u|]; [|reflexivity]. cbn. reflexivity.
Qed.

Lemma start_current parseJwt now_ms c :
  current (fst (startRefreshTokenTimer parseJwt now_ms c)) = current c.
Proof.
  unfold startRefreshTokenTimer.
  destruct (current (stopRefreshTokenTimer c)) as [u|]; [|cbn [fst set_timer current]; apply stop_current].
  destruct (negb (truthy (token u))); [cbn [fst set_timer current]; apply stop_current|].
  destruct (jwt_exp parseJwt (token u)) as [e|]; [|cbn [fst set_timer current]; apply stop_current].
  destruct (max_time <? _); [cbn [fst set_timer current]; apply stop_current|].
  destruct (0 <? _); cbn [fst set_timer current]; apply stop_current.
Qed.

Lemma start_settling parseJwt now_ms c :
  settling (fst (startRefreshTokenTimer parseJwt now_ms c)) = settling c.
Proof.
  unfold startRefreshTokenTimer.
  assert (Hs : settling (stopRefreshTokenTimer c) = settling c).
  { unfold stopRefreshTokenTimer. destruct (refreshTokenTimeout c); reflexivity. }
  destruct (current (stopRefreshTokenTimer c)) as [u|]; [|(cbn [fst set_timer settling]; exact Hs)].
  destruct (negb (truthy (token u))); [(cbn [fst set_timer settling]; exact Hs)|].
  destruct (jwt_exp parseJwt (token u)) as [e|]; [|(cbn [fst set_timer settling]; exact Hs)].
  destruct (max_time <? _); [(cbn [fst set_timer settling]; exact Hs)|].
  destruct (0 <? _); (cbn [fst set_timer settling]; exact Hs).
Qed.

(** X1.  A request answered with a server-side error whose status is not 401:
    the chain sends it once, invokes no refresh and no logout, leaves the
    session alone, opens the snack bar with the message of the status (403,
    404, 500, or the computed message otherwise), navigates to [/tasks] on a
    403, and errors with that message. *)
Theorem pipeline_error_status server parseJwt w req e :
  server (calls w) (attach (client w) req) = RErr e ->
  client_side e = None -> status e <> 401 ->
  let m := if status e =? 403 then "You do not have permission to access this resource."
           else if status e =? 404 then "Resource not found."
           else if status e =? 500 then "Server error. Please try again later."
           else initial_message e in
  pipeline server parseJwt req w =
    (Throw (ExnMessage m),
     mkWorld (client w) (now w) (S (calls w))
       (ESnack m :: (if status e =? 403 then [ENavigate "/tasks"] else [])
          ++ ESend (attach (client w) req) :: trace w)%list).
Proof.
  intros Hs Hc H401 m. subst m.
  unfold pipeline. rewrite http_S.
  cbv [auth_intercept error_intercept catchError bind get_client backend send ret throw].
  cbn [client calls trace now]. rewrite Hs.
  cbv [on_exn on_error]. rewrite Hc.
  apply Z.eqb_neq in H401. rewrite H401.
  destruct (status e =? 403); [reflexivity|].
  destruct (status e =? 404); [reflexivity|].
  destruct (status e =? 500); reflexivity.
Qed.

(** X2.  A client-side error ([ErrorEvent]), whatever its status, even 401:
    the chain sends the request once, refreshes nothing, shows
    "Error: <message>" and errors with it. *)
Theorem pipeline_client_side_error server parseJwt w req e m0 :
  server (calls w) (attach (client w) req) = RErr e ->
  client_side e = Some m0 ->
  pipeline server parseJwt req w =
    (Throw (ExnMessage ("Error: " ++ m0)),
     mkWorld (client w) (now w) (S (calls w))
       (ESnack ("Error: " ++ m0) :: ESend (attach (client w) req) :: trace w)).
Proof.
  intros Hs Hc.
  unfold pipeline. rewrite http_S.
  cbv [auth_intercept error_intercept catchError bind get_client backend send ret throw].
  cbn [client calls trace now]. rewrite Hs.
  cbv [on_exn on_error initial_message finish tell bind throw]. rewrite Hc. reflexivity.
Qed.

Ltac close_plain :=
  cbv [finish tell bind throw]; cbn [trace]; ex_prefix;
  split; [reflexivity|]; split; [reflexivity|];
  split; [let r' := fresh "r'" in let H := fresh "H" in
          intros r' H; cbn in H; intuition discriminate|];
  intros _; reflexivity.

(** X3.  A request whose URL does not start with [apiUrl] leaves the browser
    exactly as it was built: no bearer header, no change to
    [withCredentials]; it is sent once and never triggers a refresh, whatever
    the answer.  The only request that can follow it is the logout POST that
    a 401 causes when its URL contains [/refresh]; otherwise nothing else is
    sent. *)
Theorem non_api_request_untouched server parseJwt w req :
  startsWith (url req) apiUrl = false ->
  let '(r, w') := pipeline server parseJwt req w in
  exists new, trace w' = (new ++ ESend req :: trace w)%list /\ count_verify new = O /\
    (forall r', In (ESend r') new -> url r' = logoutURL) /\
    (includes (url req) "/refresh" = false -> count_sends new = O).
Proof.
  intros Hn. unfold pipeline. rewrite http_S.
  cbv [auth_intercept error_intercept catchError bind get_client backend send ret throw].
  cbn [client calls trace now].
  rewrite (attach_non_api _ _ Hn).
  destruct (server (calls w) req) as [b|e].
  { exists []. split; [reflexivity|]. split; [reflexivity|].
    split; [intros r' []|]. intros _; reflexivity. }
  cbv [on_exn on_error].
  destruct (client_side e); [close_plain|].
  destruct (status e =? 401).
  - cbv [bind get_client]. cbn [client]. rewrite Hn. cbn [andb].
    destruct (includes (url req) "/login"); [close_plain|].
    destruct (includes (url req) "/tasks"); [close_plain|].
    destruct (includes (url req) "/refresh") eqn:Hr.
    + try match goal with |- context [logout server true ?w0] =>
        rewrite (logout_eq server true w0) end.
      cbv [finish tell bind throw]. cbn [trace client]. ex_prefix.
      split; [reflexivity|]. split; [reflexivity|].
      split; [|intros H; discriminate].
      intros r' H. cbn in H. repeat destruct H as [H|H]; try discriminate; try contradiction.
      injection H as <-. apply url_logout.
    + destruct (current (client w)); cbn [negb]; close_plain.
  - destruct (status e =? 403);
      [|destruct (status e =? 404); [|destruct (status e =? 500)]]; close_plain.
Qed.

(** X4.  [verifyToken] with no session or with an empty token errors with
    "No authentication token available", sends nothing and changes no
    state. *)
Theorem verifyToken_without_token parseJwt post w :
  (current (client w) = None \/ exists u, current (client w) = Some u /\ token u = "") ->
  verifyToken parseJwt post w =
    (Throw (ExnMessage "No authentication token available"),
     mkWorld (client w) (now w) (calls w) (EVerifyToken :: trace w)).
Proof.
  intros H. cbv [verifyToken bind tell get_world throw]. cbn [client now calls trace].
  destruct H as [->|[u [-> Ht]]]; [reflexivity|]. rewrite Ht. reflexivity.
Qed.

(** X5.  [startRefreshTokenTimer] with no session, an empty token or a token
    with no decodable expiry only stops the current timer: it arms nothing and
    refreshes nothing, so no refresh callback is left pending. *)
Theorem startRefreshTokenTimer_without_expiry parseJwt now_ms c :
  (current c = None \/
   exists u, current c = Some u /\ (token u = "" \/ jwt_exp parseJwt (token u) = None)) ->
  startRefreshTokenTimer parseJwt now_ms c = (stopRefreshTokenTimer c, false) /\
  (one_timer c -> timers (stopRefreshTokenTimer c) = [] /\
                  refreshTokenTimeout (stopRefreshTokenTimer c) = None).
Proof.
  intros H. split; [|apply stop_one_timer].
  unfold startRefreshTokenTimer. rewrite stop_current.
  destruct H as [->|[u [-> [Ht|Hj]]]]; [reflexivity| |].
  - rewrite Ht. reflexivity.
  - destruct (negb (truthy (token u))); [reflexivity|]. rewrite Hj. reflexivity.
Qed.

(** X6.  [handleAuthentication] of a valid response first logs the user out
    ([isAuthenticated()] is false) and queues the user; when the 50 ms
    callback runs, the user is the current one, [isAuthenticated()] holds and
    [hasRole] holds for the user's role. *)
Theorem handleAuthentication_then_settle parseJwt r w now_ms e :
  truthy (token r) = true -> truthy (id r) = true -> jwt_exp parseJwt (token r) = Some e ->
  settling (client w) = [] ->
  let w1 := snd (handleAuthentication parseJwt r w) in
  let c2 := fst (settle_fire parseJwt now_ms (client w1)) in
  fst (handleAuthentication parseJwt r w) = Ok tt /\
  isAuthenticated (client w1) = false /\ settling (client w1) = [r] /\
  current c2 = Some r /\ isAuthenticated c2 = true /\ hasRole c2 (role r) = true /\
  settling c2 = [].
Proof.
  intros Ht Hi He Hs w1 c2. subst w1 c2.
  unfold handleAuthentication. rewrite Ht, Hi, He. cbn [negb orb].
  cbv [modify_client]. cbn [fst snd client current settling set_settling set_current].
  rewrite Hs. cbn [Datatypes.app].
  unfold settle_fire. cbn [settling set_settling set_current].
  unfold isAuthenticated, hasRole.
  rewrite start_current, start_settling. cbn. rewrite String.eqb_refl. repeat split.
Qed.

(** X7.  [autoLogin] never errors, whatever the server answers; when its GET
    fails, the session is set to [null] (without calling [logout]). *)
Theorem autoLogin_never_fails server parseJwt w :
  fst (autoLogin server parseJwt w) = Ok tt /\
  (forall ex w1, pipeline server parseJwt verifyRequest w = (Throw ex, w1) ->
     autoLogin server parseJwt w =
       (Ok tt, mkWorld (set_current None (client w1)) (now w1) (calls w1) (trace w1))).
Proof.
  unfold autoLogin. cbv [catchError bind].
  destruct (pipeline server parseJwt verifyRequest w) as [[b|ex] w1] eqn:P.
  2:{ split; [reflexivity|]. intros ex' w1' E. injection E as _ <-. reflexivity. }
  split; [|intros ? ? E; discriminate].
  destruct (data_user b) as [ud|]; [|reflexivity].
  destruct (data_token b) as [t|]; [|reflexivity].
  destruct (truthy (ud_id ud) && truthy t)%bool; [|reflexivity].
  cbv [modify_client startRefreshTokenTimerM bind get_world catchError ret].
  cbn [client now calls trace].
  match goal with |- context [startRefreshTokenTimer parseJwt ?n ?c] =>
    destruct (startRefreshTokenTimer parseJwt n c) as [c' fire] end.
  destruct fire; [|reflexivity].
  match goal with |- context [verifyToken parseJwt ?p ?w0] =>
    destruct (verifyToken parseJwt p w0) as [[?|?] ?] end; reflexivity.
Qed.

Lemma pipeline_error_status_witness :
  let e := mkHttpError 403 (Some "Forbidden") "Forbidden" None in
  let srv := fun (_ : nat) (_ : Request) => RErr e in
  srv (calls demo_world) (attach (client demo_world) profile_request) = RErr e /\
  client_side e = None /\ status e <> 401 /\
  let m := if status e =? 403 then "You do not have permission to access this resource."
           else if status e =? 404 then "Resource not found."
           else if status e =? 500 then "Server error. Please try again later."
           else initial_message e in
  pipeline srv demo_parseJwt profile_request demo_world =
    (Throw (ExnMessage m),
     mkWorld (client demo_world) (now demo_world) (S (calls demo_world))
       (ESnack m :: (if status e =? 403 then [ENavigate "/tasks"] else [])
          ++ ESend (attach (client demo_world) profile_request) :: trace demo_world)%list).
Proof.
  intros e srv.
  assert (H1 : srv (calls demo_world) (attach (client demo_world) profile_request) = RErr e)
    by reflexivity.
  assert (H2 : client_side e = None) by reflexivity.
  assert (H3 : status e <> 401) by (cbn; lia).
  split; [exact H1|]. split; [exact H2|]. split; [exact H3|].
  exact (pipeline_error_status srv demo_parseJwt demo_world profile_request e H1 H2 H3).
Defined.

Lemma pipeline_client_side_error_witness :
  let e := mkHttpError 0 None "Unknown Error" (Some "net::ERR_CONNECTION_REFUSED") in
  let srv := fun (_ : nat) (_ : Request) => RErr e in
  srv (calls demo_world) (attach (client demo_world) profile_request) = RErr e /\
  client_side e = Some "net::ERR_CONNECTION_REFUSED" /\
  pipeline srv demo_parseJwt profile_request demo_world =
    (Throw (ExnMessage ("Error: " ++ "net::ERR_CONNECTION_REFUSED")),
     mkWorld (client demo_world) (now demo_world) (S (calls demo_world))
       (ESnack ("Error: " ++ "net::ERR_CONNECTION_REFUSED")
          :: ESend (attach (client demo_world) profile_request) :: trace demo_world)).
Proof.
  intros e srv.
  assert (H1 : srv (calls demo_world) (attach (client demo_world) profile_request) = RErr e)
    by reflexivity.
  assert (H2 : client_side e = Some "net::ERR_CONNECTION_REFUSED") by reflexivity.
  split; [exact H1|]. split; [exact H2|].
  exact (pipeline_client_side_error srv demo_parseJwt demo_world profile_request e _ H1 H2).
Defined.

Lemma non_api_request_untouched_witness :
  let req := mkRequest "GET" "https://cdn.example.com/logo.png" None false in
  startsWith (url req) apiUrl = false /\
  let '(r, w') := pipeline always_401 demo_parseJwt req demo_world in
  exists new, trace w' = (new ++ ESend req :: trace demo_world)%list /\ count_verify new = O /\
    (forall r', In (ESend r') new -> url r' = logoutURL) /\
    (includes (url req) "/refresh" = false -> count_sends new = O).
Proof.
  intros req.
  assert (H : startsWith (url req) apiUrl = false) by (vm_compute; reflexivity).
  split; [exact H|].
  exact (non_api_request_untouched always_401 demo_parseJwt demo_world req H).
Defined.

Lemma verifyToken_without_token_witness :
  let w := mkWorld (mkClient None None [] 1 [] []) 1700000000000 0 [] in
  (current (client w) = None \/ exists u, current (client w) = Some u /\ token u = "") /\
  verifyToken demo_parseJwt (pipeline always_401 demo_parseJwt) w =
    (Throw (ExnMessage "No authentication token available"),
     mkWorld (client w) (now w) (calls w) (EVerifyToken :: trace w)).
Proof.
  intros w.
  assert (H : current (client w) = None \/ exists u, current (client w) = Some u /\ token u = "")
    by (left; reflexivity).
  split; [exact H|].
  exact (verifyToken_without_token demo_parseJwt (pipeline always_401 demo_parseJwt) w H).
Defined.

Lemma startRefreshTokenTimer_without_expiry_witness :
  let c := mkClient (Some (mkUser "6650f1c2" "Alice" "alice@example.com" "user" ""))
             (Some 1%positive) [(1%positive, 1700003540000)] 2%positive [] [] in
  (current c = None \/
   exists u, current c = Some u /\ (token u = "" \/ jwt_exp demo_parseJwt (token u) = None)) /\
  startRefreshTokenTimer demo_parseJwt 1700000000000 c = (stopRefreshTokenTimer c, false) /\
  (one_timer c -> timers (stopRefreshTokenTimer c) = [] /\
                  refreshTokenTimeout (stopRefreshTokenTimer c) = None).
Proof.
  intros c.
  assert (H : current c = None \/
              exists u, current c = Some u /\ (token u = "" \/ jwt_exp demo_parseJwt (token u) = None)).
  { right. eexists. split; [reflexivity|]. left. reflexivity. }
  split; [exact H|].
  exact (startRefreshTokenTimer_without_expiry demo_parseJwt 1700000000000 c H).
Defined.

Lemma handleAuthentication_then_settle_witness :
  truthy (token demo_user) = true /\ truthy (id demo_user) = true /\
  jwt_exp demo_parseJwt (token demo_user) = Some demo_exp /\ settling (client demo_world) = [] /\
  let w1 := snd (handleAuthentication demo_parseJwt demo_user demo_world) in
  let c2 := fst (settle_fire demo_parseJwt 1700000050000 (client w1)) in
  fst (handleAuthentication demo_parseJwt demo_user demo_world) = Ok tt /\
  isAuthenticated (client w1) = false /\ settling (client w1) = [demo_user] /\
  current c2 = Some demo_user /\ isAuthenticated c2 = true /\
  hasRole c2 (role demo_user) = true /\ settling c2 = [].
Proof.
  assert (H1 : truthy (token demo_user) = true) by reflexivity.
  assert (H2 : truthy (id demo_user) = true) by reflexivity.
  assert (H3 : jwt_exp demo_parseJwt (token demo_user) = Some demo_exp) by reflexivity.
  assert (H4 : settling (client demo_world) = []) by reflexivity.
  split; [exact H1|]. split; [exact H2|]. split; [exact H3|]. split; [exact H4|].
  exact (handleAuthentication_then_settle demo_parseJwt demo_user demo_world 1700000050000
           demo_exp H1 H2 H3 H4).
Defined.

End ClientExtras.

(* ------------------------------------------------------------------------- *)
(** ** Server: further properties *)

Module ServerExtras.
Import Server.

Lemma lower_ascii_facts c :
  is_ws (lower_ascii c) = is_ws c /\ Ascii.eqb (lower_ascii c) "@" = Ascii.eqb c "@" /\
  Ascii.eqb (lower_ascii c) "." = Ascii.eqb c ".".
Proof. destruct c as [[] [] [] [] [] [] [] []]; vm_compute; auto. Qed.

Lemma toLowerCase_list s :
  list_ascii_of_string (toLowerCase s) = map lower_ascii (list_ascii_of_string s).
Proof. induction s as [|c s IH]; cbn; [reflexivity|]. rewrite IH. reflexivity. Qed.

Lemma plain_lower c : plain (lower_ascii c) = plain c.
Proof. unfold plain. destruct (lower_ascii_facts c) as [H1 [H2 _]]. rewrite H1, H2. reflexivity. Qed.

Lemma has_inner_dot_lower l : has_inner_dot (map lower_ascii l) = has_inner_dot l.
Proof.
  induction l as [|x l IH]; [reflexivity|].
  destruct l as [|y l]; [reflexivity|].
  destruct l as [|z l]; [reflexivity|].
  change (has_inner_dot (map lower_ascii (x :: y :: z :: l)))
    with (Ascii.eqb (lower_ascii y) "." || has_inner_dot (map lower_ascii (y :: z :: l)))%bool.
  rewrite IH. destruct (lower_ascii_facts y) as [_ [_ H]]. rewrite H. reflexivity.
Qed.

Lemma email_ok_lower l b : email_ok (map lower_ascii l) b = email_ok l b.
Proof.
  revert b. induction l as [|c l IH]; intros b; [reflexivity|].
  cbn [map email_ok]. destruct (lower_ascii_facts c) as [Hw [Ha _]]. rewrite Ha, Hw, IH.
  destruct (Ascii.eqb c "@"); [|reflexivity].
  unfold domain_ok. rewrite has_inner_dot_lower. f_equal. f_equal.
  clear. induction l as [|x l IH]; cbn; [reflexivity|]. rewrite plain_lower, IH. reflexivity.
Qed.

(** X8.  The email pattern does not depend on letter case:
    [isValidEmail(email.toLowerCase()) = isValidEmail(email)]. *)
Theorem isValidEmail_case_insensitive e : isValidEmail (toLowerCase e) = isValidEmail e.
Proof. unfold isValidEmail. rewrite toLowerCase_list. apply email_ok_lower. Qed.

Lemma truthy_nonempty s : truthy s = false -> s = "".
Proof. unfold truthy. destruct (String.eqb_spec s ""); [auto|discriminate]. Qed.

Lemma valid_email_truthy e : isValidEmail e = true -> truthy e = true.
Proof. intros H. destruct e; [discriminate|reflexivity]. Qed.

Lemma count_zero_all s em :
  countDocuments_email s em = O -> forall d, In d s -> String.eqb (doc_email d) em = false.
Proof.
  unfold countDocuments_email. intros H d Hd.
  destruct (String.eqb (doc_email d) em) eqn:E; [|reflexivity].
  assert (In d (filter (fun d => String.eqb (doc_email d) em) s)) by (apply filter_In; auto).
  destruct (filter _ s); [contradiction|discriminate].
Qed.

(** X9.  [POST /api/auth/register] runs [AuthController.register] on the
    body's [name], [email] and [password].  Without an email it throws a
    [TypeError]; with a used one (compared in lower case) it throws an
    [AppError] "Email already in use" with status 400; otherwise the first
    failing check of [User] throws its [Error]; in these cases the store is
    unchanged and, the handler being [async], no response is sent.
    Otherwise the store gains one document with the trimmed name, the
    lower-cased email, the bcrypt hash and the role "user", and the answer
    is 201.  An absent name or password fails as an empty one. *)
Theorem register_http_outcome L routes docs a ck n e p s :
  app L routes docs (mkHttpReq "POST" "/api/auth/register" a ck None n e p) s =
    AuthController_register L n e p s /\
  AuthController_register L n e p s =
    match e with
    | None => (Unanswered undefined_toLowerCase, s)
    | Some e =>
      let n := or_empty n in
      let p := or_empty p in
      if emailExists s e then (Unanswered (AppError "Email already in use" 400), s)
      else if (negb (truthy n) || (String.length (trim n) <? 2)%nat)%bool
      then (Unanswered (plain_error "Name must be at least 2 characters long"), s)
      else if (negb (truthy e) || negb (isValidEmail e))%bool
      then (Unanswered (plain_error "Valid email is required"), s)
      else if (negb (truthy p) || (String.length p <? 6)%nat)%bool
      then (Unanswered (plain_error "Password must be at least 6 characters long"), s)
      else
        let d := mkUserDoc (fresh_id L s) (trim n) (toLowerCase e) (bcrypt_hash L p) "user" in
        (Reply (mkResp 201 (JUser d)), (s ++ [d])%list)
    end.
Proof.
  split; [reflexivity|].
  destruct e as [e|]; [|reflexivity]. cbv zeta.
  unfold AuthController_register, RegisterUserUseCase_execute.
  cbn [ri_email ri_name ri_password ri_role].
  generalize (or_empty n) as n'. generalize (or_empty p) as p'. clear n p. intros p n.
  destruct (emailExists s e) eqn:Hx; [reflexivity|].
  unfold UserRepository_create, User_new. cbn [name email password role truthy].
  change (truthy "user") with true. cbn [negb].
  destruct (negb (truthy n) || (String.length (trim n) <? 2)%nat)%bool eqn:H1; [reflexivity|].
  destruct (negb (truthy e) || negb (isValidEmail e))%bool eqn:H2; [reflexivity|].
  destruct (negb (truthy p) || (String.length p <? 6)%nat)%bool eqn:H3; [reflexivity|].
  cbn [name email password role]. change (truthy "user") with true. rewrite H1, H2, H3.
  apply orb_false_iff in H1 as [Tn Ln]. apply orb_false_iff in H2 as [Te Ve].
  apply orb_false_iff in H3 as [Tp Lp].
  apply negb_false_iff in Tn, Te, Tp, Ve. apply Nat.ltb_ge in Ln, Lp.
  assert (Hte : trim e = e) by (apply ServerFacts.trim_valid_email, Ve).
  unfold UserModel_create. cbn [name email password role]. rewrite Hte.
  rewrite isValidEmail_case_insensitive, Ve.
  assert (Htn : truthy (trim n) = true).
  { destruct (truthy (trim n)) eqn:E; [reflexivity|]. apply truthy_nonempty in E.
    rewrite E in Ln. cbn in Ln. lia. }
  rewrite Htn, Tp. change (truthy "user") with true.
  assert (Hle : (2 <=? String.length (trim n))%nat = true) by (apply Nat.leb_le; lia).
  assert (Hlp : (6 <=? String.length p)%nat = true) by (apply Nat.leb_le; lia).
  rewrite Hle, Hlp.
  assert (Htl : truthy (toLowerCase e) = true).
  { apply valid_email_truthy. rewrite isValidEmail_case_insensitive. exact Ve. }
  rewrite Htl. cbn [andb negb String.eqb orb].
  unfold emailExists in Hx. apply Nat.ltb_ge in Hx.
  assert (Hc : countDocuments_email s (toLowerCase e) = O) by lia.
  rewrite Hc. reflexivity.
Qed.

Lemma find_last {A} (f : A -> bool) s x :
  (forall y, In y s -> f y = false) -> f x = true -> find f (s ++ [x])%list = Some x.
Proof.
  induction s as [|y s IH]; intros H Hx; cbn [find Datatypes.app].
  - rewrite Hx. reflexivity.
  - rewrite (H y (or_introl eq_refl)). apply IH; auto. intros z Hz. apply H. right. exact Hz.
Qed.

(** Facts about a successful registration. *)
Lemma register_success L inp s d s1 :
  RegisterUserUseCase_execute L inp s = (Done d, s1) ->
  s1 = (s ++ [d])%list /\ emailExists s (ri_email inp) = false /\
  doc_id d = fresh_id L s /\ doc_email d = toLowerCase (ri_email inp) /\
  doc_password d = bcrypt_hash L (ri_password inp).
Proof.
  unfold RegisterUserUseCase_execute.
  destruct (emailExists s (ri_email inp)) eqn:Hx; [discriminate|].
  destruct (User_new _) as [user|] eqn:Hu; [|discriminate].
  destruct (ServerFacts.User_new_spec _ _ Hu) as [_ [Eu [Ep [_ [Hval _]]]]]. cbn in Eu, Ep, Hval.
  unfold UserRepository_create. destruct (User_new user); [|discriminate].
  intros H. pose proof H as H'.
  apply ServerFacts.UserModel_create_spec in H as [-> [_ [Hem [Hpw _]]]].
  rewrite Eu, (ServerFacts.trim_valid_email _ Hval) in Hem. rewrite Ep in Hpw.
  repeat split; auto.
  unfold UserModel_create in H'.
  match type of H' with context [if negb ?b then _ else _] => destruct b end;
    cbn [negb] in H'; [|discriminate].
  destruct (0 <? countDocuments_email s _)%nat; [discriminate|].
  injection H' as <- _. reflexivity.
Qed.

(** X10.  After a registration, logging in with the same password and any
    spelling of the email succeeds with the stored user and a token signed
    over its id, email and role, and [POST /api/auth/login] answers 200
    (bcrypt recognising its own hash, the new id being fresh and an id
    Mongoose casts to an ObjectId). *)
Theorem register_then_login L routes docs inp s d s1 e' a ck nm :
  bcrypt_compare L (ri_password inp) (bcrypt_hash L (ri_password inp)) = true ->
  ~ In (fresh_id L s) (map doc_id s) ->
  objectId_ok L (fresh_id L s) = true ->
  RegisterUserUseCase_execute L inp s = (Done d, s1) ->
  toLowerCase e' = toLowerCase (ri_email inp) ->
  let tok := jwt_sign L (mkTokenPayload (doc_id d) (doc_email d) (doc_role d) None) in
  LoginUserUseCase_execute L (Some e') (Some (ri_password inp)) s1 =
    Done (mkLoginUserOutput d tok) /\
  app L routes docs
    (mkHttpReq "POST" "/api/auth/login" a ck None nm (Some e') (Some (ri_password inp))) s1 =
    (Reply (mkResp 200 (JAuth d tok)), s1).
Proof.
  intros Hb Hid Hok Hr Hl tok.
  destruct (register_success L inp s d s1 Hr) as [-> [Hx [Hi [He Hp]]]].
  assert (Hf : findByEmail (s ++ [d])%list e' = Some d).
  { unfold findByEmail. rewrite Hl, <- He. apply find_last; [|apply String.eqb_refl].
    unfold emailExists in Hx. apply Nat.ltb_ge in Hx. rewrite <- He in Hx.
    apply count_zero_all. lia. }
  assert (Hfi : findById L (s ++ [d])%list (doc_id d) = Done (Some d)).
  { unfold findById. rewrite Hi, Hok, <- Hi. f_equal.
    apply find_last; [|apply String.eqb_refl].
    intros y Hy. rewrite Hi. destruct (String.eqb_spec (doc_id y) (fresh_id L s)) as [E|];
      [|reflexivity].
    exfalso. apply Hid. rewrite <- E. apply in_map, Hy. }
  assert (Hlog : LoginUserUseCase_execute L (Some e') (Some (ri_password inp)) (s ++ [d])%list =
                 Done (mkLoginUserOutput d tok)).
  { unfold LoginUserUseCase_execute, comparePassword. rewrite Hf, Hfi, Hp, Hb. reflexivity. }
  split; [exact Hlog|].
  change (app L routes docs
            (mkHttpReq "POST" "/api/auth/login" a ck None nm (Some e') (Some (ri_password inp)))
            (s ++ [d])%list)
    with (AuthController_login L (Some e') (Some (ri_password inp)) (s ++ [d])%list,
          (s ++ [d])%list).
  unfold AuthController_login. rewrite Hlog. reflexivity.
Qed.

Lemma NoDup_snoc {A} (l : list A) x : NoDup l -> ~ In x l -> NoDup (l ++ [x])%list.
Proof.
  induction l as [|y l IH]; intros H Hx; cbn; [constructor; [auto|constructor]|].
  inversion H as [|? ? Hy Hl]; subst. constructor.
  - intros Hin. apply in_app_or in Hin as [Hin|[E|[]]]; [contradiction|].
    subst. apply Hx. left. reflexivity.
  - apply IH; auto. intros Hin. apply Hx. right. exact Hin.
Qed.

Lemma UserModel_create_unique L d s :
  NoDup (map doc_email s) -> NoDup (map doc_email (snd (UserModel_create L d s))).
Proof.
  intros H. unfold UserModel_create.
  match goal with |- context [if negb ?b then _ else _] => destruct b end;
    cbn [negb]; [|exact H].
  destruct (0 <? countDocuments_email s (toLowerCase (trim (email d))))%nat eqn:Hc; [exact H|].
  cbn [snd]. rewrite map_app. apply NoDup_snoc; [exact H|]. cbn [doc_email].
  apply Nat.ltb_ge in Hc. intros Hin. apply in_map_iff in Hin as [y [Ey Hy]].
  assert (H0 : countDocuments_email s (toLowerCase (trim (email d))) = O) by lia.
  pose proof (count_zero_all s _ H0 y Hy) as Hf. rewrite Ey, String.eqb_refl in Hf.
  discriminate.
Qed.

(** X11.  No two stored users share an email: [UserRepository.create],
    [RegisterUserUseCase.execute] and the application (given handlers that keep
    it) preserve it. *)
Theorem stored_emails_unique L :
  (forall d s, NoDup (map doc_email s) ->
     NoDup (map doc_email (snd (UserRepository_create L d s)))) /\
  (forall inp s, NoDup (map doc_email s) ->
     NoDup (map doc_email (snd (RegisterUserUseCase_execute L inp s)))) /\
  (forall req s routes docs, (forall c r s', NoDup (map doc_email s') ->
                                NoDup (map doc_email (snd (routes c r s')))) ->
     NoDup (map doc_email s) -> NoDup (map doc_email (snd (app L routes docs req s)))).
Proof.
  assert (Hrepo : forall d s, NoDup (map doc_email s) ->
            NoDup (map doc_email (snd (UserRepository_create L d s)))).
  { intros d s H. unfold UserRepository_create.
    destruct (User_new d); [apply UserModel_create_unique, H|exact H]. }
  assert (Hreg : forall inp s, NoDup (map doc_email s) ->
            NoDup (map doc_email (snd (RegisterUserUseCase_execute L inp s)))).
  { intros inp s H. unfold RegisterUserUseCase_execute.
    destruct (emailExists s (ri_email inp)); [exact H|].
    destruct (User_new _); [apply Hrepo, H|exact H]. }
  split; [exact Hrepo|]. split; [exact Hreg|].
  intros req s routes docs Hr H. unfold app. cbv zeta.
  destruct (String.eqb (hr_method req) "OPTIONS"); [exact H|].
  destruct (parse_error req); [exact H|].
  destruct (under _ "/api-docs"); [exact H|].
  destruct (under _ "/api/auth").
  - destruct (route "POST" "/api/auth/register" req).
    + unfold AuthController_register. destruct (body_email req) as [em|]; [|exact H].
      pose proof (Hreg (mkRegisterUserInput (or_empty (body_name req)) em
                          (or_empty (body_password req)) "") s H) as Hs.
      destruct (RegisterUserUseCase_execute L _ s) as [[d|e] s']; exact Hs.
    + destruct (route "POST" "/api/auth/login" req); [exact H|].
      destruct (route "POST" "/api/auth/refresh" req); [destruct (validateToken L req); exact H|].
      destruct (route "POST" "/api/auth/logout" req); exact H.
  - destruct (under _ "/api/users" || under _ "/api/tasks")%bool.
    + destruct (authenticate L req); [apply Hr, H|exact H].
    + destruct (route "GET" "/health" req); [exact H|].
      destruct (root_route req); exact H.
Qed.

(** X12.  [emailExists] holds exactly when [findByEmail] finds a user. *)
Theorem emailExists_iff_findByEmail s e :
  emailExists s e = true <-> exists d, findByEmail s e = Some d.
Proof.
  unfold emailExists, findByEmail, countDocuments_email. split.
  - intros H. apply Nat.ltb_lt in H.
    destruct (filter (fun d => String.eqb (doc_email d) (toLowerCase e)) s) as [|x l] eqn:F;
      [cbn in H; lia|].
    assert (Hx : In x (filter (fun d => String.eqb (doc_email d) (toLowerCase e)) s))
      by (rewrite F; left; reflexivity).
    apply filter_In in Hx as [Hin Hx].
    destruct (find (fun d => String.eqb (doc_email d) (toLowerCase e)) s) eqn:Fd; [eauto|].
    rewrite (find_none _ _ Fd x Hin) in Hx. discriminate.
  - intros [d Hd]. apply find_some in Hd as [Hin Hd].
    assert (Hx : In d (filter (fun d => String.eqb (doc_email d) (toLowerCase e)) s))
      by (apply filter_In; auto).
    apply Nat.ltb_lt. destruct (filter _ s); [contradiction|cbn; lia].
Qed.

(** X13.  On a body with an email and a password, and a store whose ids
    Mongoose casts to ObjectIds, [LoginUserUseCase.execute] only ever fails
    with "Invalid email or password": its "User not found" branch is
    unreachable. *)
Theorem login_single_failure L e p s err :
  Forall (fun d => objectId_ok L (doc_id d) = true) s ->
  LoginUserUseCase_execute L (Some e) (Some p) s = Fail err ->
  err = plain_error "Invalid email or password".
Proof.
  intros Hs. unfold LoginUserUseCase_execute.
  destruct (findByEmail s e) as [user|] eqn:Hf; [|congruence].
  unfold findByEmail in Hf. apply find_some in Hf as [Hin _].
  unfold findById. rewrite (proj1 (Forall_forall _ s) Hs user Hin).
  destruct (find (fun d => String.eqb (doc_id d) (doc_id user)) s) as [ud|] eqn:Hi.
  - unfold comparePassword. destruct (bcrypt_compare L p (doc_password ud)); congruence.
  - pose proof (find_none _ _ Hi user Hin) as H.
    cbn beta in H. rewrite String.eqb_refl in H. discriminate.
Qed.

(** [authenticate] and [validateToken] accept the same requests and refuse
    the others for the same reason. *)
Ltac ag := repeat split; intros H;
  first [ discriminate H
        | lazymatch type of H with ex _ => destruct H as [? H]; discriminate H end
        | eauto ].

(** X14.  [authenticate] and [validateToken] accept the same requests and
    refuse the others for the same reason, each with its own message. *)
Theorem authenticate_validateToken_agree L req :
  ((exists c, authenticate L req = MwNext c) <-> validateToken L req = MwNext tt) /\
  (authenticate L req = MwRespond (mkResp 401 (JErrorText "Authentication required")) <->
   validateToken L req = MwRespond (mkResp 401 (JErrorText "Token required"))) /\
  (authenticate L req = MwRespond (mkResp 401 (JErrorText "Authentication token missing")) <->
   validateToken L req = MwRespond (mkResp 401 (JErrorText "Token missing"))) /\
  (authenticate L req = MwRespond (mkResp 401 (JErrorText "Invalid or expired token")) <->
   validateToken L req = MwRespond (mkResp 401 (JErrorText "Invalid or expired token"))).
Proof.
  unfold authenticate, validateToken.
  destruct (authorization req) as [h|].
  2:{ ag. }
  destruct (negb (truthy h) || negb (startsWith h "Bearer "))%bool.
  { ag. }
  destruct (negb (truthy (split_space_1 h))).
  { ag. }
  destruct (jwt_verify L (split_space_1 h)) as [c| | |];
    ag.
Qed.

Lemma upto_space_app t r :
  forallb (fun c => negb (Ascii.eqb c " ")) (list_ascii_of_string t) = true ->
  upto_space (t ++ String " " r) = t.
Proof.
  induction t as [|c t IH]; cbn; [reflexivity|]. intros H.
  apply andb_prop in H as [H1 H2]. destruct (Ascii.eqb c " "); [discriminate|].
  rewrite IH by exact H2. reflexivity.
Qed.

(** X15.  How [authenticate] reads [Authorization]: without the prefix
    "Bearer " it answers "Authentication required"; with an empty text or a
    second space right after the prefix, "Authentication token missing";
    otherwise only the text up to the next space (or the end) is verified. *)
Theorem authenticate_header_cases L req h :
  authorization req = Some h ->
  (startsWith h "Bearer " = false ->
     authenticate L req = MwRespond (mkResp 401 (JErrorText "Authentication required"))) /\
  (forall t, h = "Bearer " ++ t -> (t = "" \/ exists r, t = String " " r) ->
     authenticate L req = MwRespond (mkResp 401 (JErrorText "Authentication token missing"))) /\
  (forall t r, h = "Bearer " ++ t ++ r -> (r = "" \/ exists r', r = String " " r') ->
     truthy t = true ->
     forallb (fun c => negb (Ascii.eqb c " ")) (list_ascii_of_string t) = true ->
     authenticate L req =
       match jwt_verify L t with
       | JwtValid c => MwNext c
       | _ => MwRespond (mkResp 401 (JErrorText "Invalid or expired token"))
       end).
Proof.
  intros Ha. unfold authenticate. rewrite Ha. split; [|split].
  - intros Hs. rewrite Hs, orb_true_r. reflexivity.
  - intros t -> Ht.
    assert (Hs : startsWith ("Bearer " ++ t) "Bearer " = true) by apply ServerFacts.prefix_app.
    assert (Htr : truthy ("Bearer " ++ t) = true) by reflexivity.
    rewrite Hs, Htr. cbn [negb orb].
    replace (split_space_1 ("Bearer " ++ t)) with "".
    + reflexivity.
    + unfold split_space_1. cbn. destruct Ht as [->|[r ->]]; reflexivity.
  - intros t r -> Hr Ht Hns.
    assert (Hs : startsWith ("Bearer " ++ t ++ r) "Bearer " = true)
      by apply ServerFacts.prefix_app.
    assert (Htr : truthy ("Bearer " ++ t ++ r) = true) by reflexivity.
    rewrite Hs, Htr. cbn [negb orb].
    replace (split_space_1 ("Bearer " ++ t ++ r)) with t.
    + rewrite Ht. cbn [negb]. destruct (jwt_verify L t); reflexivity.
    + unfold split_space_1. cbn. symmetry. destruct Hr as [->|[r' ->]].
      * rewrite ServerFacts.str_app_nil. apply ServerFacts.upto_space_nospace, Hns.
      * apply upto_space_app, Hns.
Qed.

(** X16.  [POST /api/auth/refresh] never succeeds in the application: it
    answers 401 or 500 "Failed to refresh token", the latter for every
    request [validateToken] lets through, and changes no user. *)
Theorem refresh_route_never_succeeds L routes docs req s :
  hr_method req = "POST" -> path_eq (pathname (hr_path req)) "/api/auth/refresh" = true ->
  parse_error req = None ->
  snd (app L routes docs req s) = s /\
  (exists r, fst (app L routes docs req s) = Reply r /\
     (resp_status r = 401 \/ r = mkResp 500 (JFail "Failed to refresh token"))) /\
  (validateToken L req = MwNext tt ->
   fst (app L routes docs req s) = Reply (mkResp 500 (JFail "Failed to refresh token"))).
Proof.
  intros Hm Hp Hpe.
  rewrite (ServerFacts.app_refresh L routes docs req s Hm Hpe Hp).
  split; [reflexivity|]. split.
  - cbn [fst]. unfold validateToken.
    destruct (authorization req) as [h|]; [|eexists; split; [reflexivity|left; reflexivity]].
    destruct (negb (truthy h) || negb (startsWith h "Bearer "))%bool;
      [eexists; split; [reflexivity|left; reflexivity]|].
    destruct (negb (truthy (split_space_1 h)));
      [eexists; split; [reflexivity|left; reflexivity]|].
    destruct (jwt_verify L (split_space_1 h));
      eexists; (split; [reflexivity|]); [right|left|left|left]; reflexivity.
  - intros ->. reflexivity.
Qed.

(** X17.  Outside the user and task routers, no request but
    [POST /api/auth/register] changes the users; [POST /api/auth/logout]
    (in any letter case, with or without a trailing slash) always answers 200
    "Logged out successfully" when its body, if any, parses. *)
Theorem app_store_unchanged L routes docs req s :
  route "POST" "/api/auth/register" req = false ->
  (under (pathname (hr_path req)) "/api/users" ||
   under (pathname (hr_path req)) "/api/tasks")%bool = false ->
  snd (app L routes docs req s) = s /\
  (route "POST" "/api/auth/logout" req = true -> parse_error req = None ->
   fst (app L routes docs req s) = Reply (mkResp 200 (JOk "Logged out successfully"))).
Proof.
  intros Hr Hu. split.
  - unfold app. cbv zeta. rewrite Hr, Hu.
    destruct (String.eqb (hr_method req) "OPTIONS"); [reflexivity|].
    destruct (parse_error req); [reflexivity|].
    destruct (under _ "/api-docs"); [reflexivity|].
    destruct (under _ "/api/auth").
    + destruct (route "POST" "/api/auth/login" req); [reflexivity|].
      destruct (route "POST" "/api/auth/refresh" req); [destruct (validateToken L req); reflexivity|].
      destruct (route "POST" "/api/auth/logout" req); reflexivity.
    + destruct (route "GET" "/health" req); [reflexivity|].
      destruct (root_route req); reflexivity.
  - intros Hl Hpe. pose proof Hl as Hl'. unfold route, method_ok, path_eq in Hl'. cbv zeta in Hl'.
    apply andb_prop in Hl' as [Hm Hp].
    assert (Hmo : String.eqb (hr_method req) "OPTIONS" = false).
    { apply orb_prop in Hm as [Hm|Hm].
      - apply String.eqb_eq in Hm. rewrite Hm. reflexivity.
      - discriminate Hm. }
    apply orb_prop in Hm as [Hm|Hm]; [|discriminate Hm]. apply String.eqb_eq in Hm.
    unfold app. cbv zeta. rewrite Hmo, Hpe, Hr, Hl.
    rewrite !ServerFacts.under_lower. unfold route, path_eq, method_ok. cbv zeta. rewrite Hm.
    apply orb_prop in Hp as [Hp|Hp]; apply String.eqb_eq in Hp; rewrite Hp; reflexivity.
Qed.

(** X18.  [AuthController.refreshToken] with a [token] cookie ignores the
    header; a valid token of a user still stored gets a new token with the id,
    email and role of the old one and the name now stored; a deleted user
    gets 401 "User not found"; an expired token 401 "Token expired", a
    malformed one 401 "Invalid token"; a token not yet valid, a payload
    without an id and an id Mongoose cannot cast to an ObjectId get 500
    "Failed to refresh token". *)
Theorem refreshToken_cookie L req s t :
  truthy t = true ->
  AuthController_refreshToken L (Some (Some t)) req s =
    match jwt_verify L t with
    | JwtValid (mkClaims (Some i) em rl) =>
        if objectId_ok L i then
          match find (fun d => String.eqb (doc_id d) i) s with
          | None => mkResp 401 (JFail "User not found")
          | Some d =>
              mkResp 200 (JAuth d (jwt_sign L (mkTokenPayload i em rl (Some (doc_name d)))))
          end
        else mkResp 500 (JFail "Failed to refresh token")
    | JwtValid (mkClaims None _ _) => mkResp 500 (JFail "Failed to refresh token")
    | JwtExpired => mkResp 401 (JFail "Token expired")
    | JwtNotBefore => mkResp 500 (JFail "Failed to refresh token")
    | JwtInvalid => mkResp 401 (JFail "Invalid token")
    end.
Proof.
  intros Ht. unfold AuthController_refreshToken. rewrite Ht. cbn. rewrite Ht. cbn [negb].
  unfold utils_verifyToken.
  destruct (jwt_verify L t) as [[[i|] em rl]| | |]; cbn; try reflexivity.
  unfold findById. destruct (objectId_ok L i); reflexivity.
Qed.

Lemma register_then_login_witness :
  bcrypt_compare demo_libs (ri_password alice) (bcrypt_hash demo_libs (ri_password alice)) = true /\
  ~ In (fresh_id demo_libs []) (map doc_id []) /\
  objectId_ok demo_libs (fresh_id demo_libs []) = true /\
  RegisterUserUseCase_execute demo_libs alice [] = (Done alice_doc, alice_store) /\
  toLowerCase "ALICE@EXAMPLE.COM" = toLowerCase (ri_email alice) /\
  let tok := jwt_sign demo_libs
               (mkTokenPayload (doc_id alice_doc) (doc_email alice_doc) (doc_role alice_doc) None) in
  LoginUserUseCase_execute demo_libs (Some "ALICE@EXAMPLE.COM") (Some (ri_password alice))
    alice_store = Done (mkLoginUserOutput alice_doc tok) /\
  app demo_libs demo_routes demo_docs
    (mkHttpReq "POST" "/api/auth/login" None None None None (Some "ALICE@EXAMPLE.COM")
       (Some (ri_password alice)))
    alice_store = (Reply (mkResp 200 (JAuth alice_doc tok)), alice_store).
Proof.
  assert (H1 : bcrypt_compare demo_libs (ri_password alice)
                 (bcrypt_hash demo_libs (ri_password alice)) = true) by (vm_compute; reflexivity).
  assert (H2 : ~ In (fresh_id demo_libs []) (map doc_id [])) by (simpl; tauto).
  assert (H2' : objectId_ok demo_libs (fresh_id demo_libs []) = true)
    by (vm_compute; reflexivity).
  assert (H3 : RegisterUserUseCase_execute demo_libs alice [] = (Done alice_doc, alice_store))
    by (vm_compute; reflexivity).
  assert (H4 : toLowerCase "ALICE@EXAMPLE.COM" = toLowerCase (ri_email alice))
    by (vm_compute; reflexivity).
  split; [exact H1|]. split; [exact H2|]. split; [exact H2'|]. split; [exact H3|].
  split; [exact H4|].
  exact (register_then_login demo_libs demo_routes demo_docs alice [] alice_doc alice_store
           "ALICE@EXAMPLE.COM" None None None H1 H2 H2' H3 H4).
Defined.

Lemma login_single_failure_witness :
  Forall (fun d => objectId_ok demo_libs (doc_id d) = true) alice_store /\
  LoginUserUseCase_execute demo_libs (Some "alice@example.com") (Some "wrong-password")
    alice_store = Fail (plain_error "Invalid email or password") /\
  plain_error "Invalid email or password" = plain_error "Invalid email or password".
Proof.
  assert (H0 : Forall (fun d => objectId_ok demo_libs (doc_id d) = true) alice_store)
    by (repeat constructor).
  assert (H : LoginUserUseCase_execute demo_libs (Some "alice@example.com")
                (Some "wrong-password") alice_store =
              Fail (plain_error "Invalid email or password")) by (vm_compute; reflexivity).
  split; [exact H0|]. split; [exact H|].
  exact (login_single_failure demo_libs "alice@example.com" "wrong-password" alice_store _ H0 H).
Defined.

Lemma authenticate_header_cases_witness :
  let h := "Bearer jwt.id0 trailing" in
  let req := mkHttpReq "GET" "/api/tasks" (Some h) None None None None None in
  authorization req = Some h /\
  (startsWith h "Bearer " = false ->
     authenticate demo_libs req = MwRespond (mkResp 401 (JErrorText "Authentication required"))) /\
  (forall t, h = "Bearer " ++ t -> (t = "" \/ exists r, t = String " " r) ->
     authenticate demo_libs req =
       MwRespond (mkResp 401 (JErrorText "Authentication token missing"))) /\
  (forall t r, h = "Bearer " ++ t ++ r -> (r = "" \/ exists r', r = String " " r') ->
     truthy t = true ->
     forallb (fun c => negb (Ascii.eqb c " ")) (list_ascii_of_string t) = true ->
     authenticate demo_libs req =
       match jwt_verify demo_libs t with
       | JwtValid c => MwNext c
       | _ => MwRespond (mkResp 401 (JErrorText "Invalid or expired token"))
       end).
Proof.
  intros h req.
  assert (H : authorization req = Some h) by reflexivity.
  split; [exact H|].
  exact (authenticate_header_cases demo_libs req h H).
Defined.

Lemma refresh_route_never_succeeds_witness :
  let req := mkHttpReq "POST" "/API/auth/refresh/" (Some "Bearer jwt.id0") (Some "jwt.id0")
               None None None None in
  hr_method req = "POST" /\ path_eq (pathname (hr_path req)) "/api/auth/refresh" = true /\
  parse_error req = None /\
  snd (app demo_libs demo_routes demo_docs req alice_store) = alice_store /\
  (exists r, fst (app demo_libs demo_routes demo_docs req alice_store) = Reply r /\
     (resp_status r = 401 \/ r = mkResp 500 (JFail "Failed to refresh token"))) /\
  (validateToken demo_libs req = MwNext tt ->
   fst (app demo_libs demo_routes demo_docs req alice_store) =
     Reply (mkResp 500 (JFail "Failed to refresh token"))).
Proof.
  intros req.
  assert (H1 : hr_method req = "POST") by reflexivity.
  assert (H2 : path_eq (pathname (hr_path req)) "/api/auth/refresh" = true)
    by (vm_compute; reflexivity).
  assert (H3 : parse_error req = None) by reflexivity.
  split; [exact H1|]. split; [exact H2|]. split; [exact H3|].
  exact (refresh_route_never_succeeds demo_libs demo_routes demo_docs req alice_store H1 H2 H3).
Defined.

Lemma app_store_unchanged_witness :
  let req := mkHttpReq "POST" "/API/Auth/Logout/" None (Some "jwt.id0") None None None None in
  route "POST" "/api/auth/register" req = false /\
  (under (pathname (hr_path req)) "/api/users" ||
   under (pathname (hr_path req)) "/api/tasks")%bool = false /\
  snd (app demo_libs demo_routes demo_docs req alice_store) = alice_store /\
  (route "POST" "/api/auth/logout" req = true -> parse_error req = None ->
   fst (app demo_libs demo_routes demo_docs req alice_store) =
     Reply (mkResp 200 (JOk "Logged out successfully"))).
Proof.
  intros req.
  assert (H1 : route "POST" "/api/auth/register" req = false) by (vm_compute; reflexivity).
  assert (H2 : (under (pathname (hr_path req)) "/api/users" ||
                under (pathname (hr_path req)) "/api/tasks")%bool = false)
    by (vm_compute; reflexivity).
  split; [exact H1|]. split; [exact H2|].
  exact (app_store_unchanged demo_libs demo_routes demo_docs req alice_store H1 H2).
Defined.

Lemma refreshToken_cookie_witness :
  let req := mkHttpReq "POST" "/api/auth/refresh" (Some "Bearer forged") (Some "jwt.bad-id")
               None None None None in
  truthy "jwt.bad-id" = true /\
  AuthController_refreshToken demo_libs (Some (Some "jwt.bad-id")) req alice_store =
    match jwt_verify demo_libs "jwt.bad-id" with
    | JwtValid (mkClaims (Some i) em rl) =>
        if objectId_ok demo_libs i then
          match find (fun d => String.eqb (doc_id d) i) alice_store with
          | None => mkResp 401 (JFail "User not found")
          | Some d =>
              mkResp 200 (JAuth d (jwt_sign demo_libs
                                     (mkTokenPayload i em rl (Some (doc_name d)))))
          end
        else mkResp 500 (JFail "Failed to refresh token")
    | JwtValid (mkClaims None _ _) => mkResp 500 (JFail "Failed to refresh token")
    | JwtExpired => mkResp 401 (JFail "Token expired")
    | JwtNotBefore => mkResp 500 (JFail "Failed to refresh token")
    | JwtInvalid => mkResp 401 (JFail "Invalid token")
    end.
Proof.
  intros req.
  assert (H : truthy "jwt.bad-id" = true) by reflexivity.
  split; [exact H|].
  exact (refreshToken_cookie demo_libs req alice_store "jwt.bad-id" H).
Defined.

End ServerExtras.
